(** * prcapi: the request layer, the response mappers and the client lifecycle

    A shallow embedding of [prcapi/http.py], [prcapi/exceptions.py],
    [prcapi/models.py] and [prcapi/client.py].

    Python objects are explicit values, mutable objects ([HTTPClient],
    [Client], the aiohttp session) are records threaded through the calls
    that mutate them, a raised exception is the [Raise] outcome, and every
    awaited effect (opening or closing the session, one HTTP exchange, one
    [asyncio.sleep]) is appended to a trace in program order. *)

From Stdlib Require Import ZArith Ascii String List Bool Lia.
From Stdlib Require Import SpecFloat.
From stdpp Require Import base option list gmap strings pretty.

Local Open Scope Z_scope.
Local Open Scope string_scope.

#[local] Set Warnings "-register-all".

(** ** Python values *)

(** A Python [float] is an IEEE 754 binary64 number. *)
Abbreviation float := spec_float.

Definition float_prec : Z := 53.
Definition float_emax : Z := 1024.

(** The values [json.loads] produces (and the client passes around):
    [None], [bool], [int], [float], [str], [list] and [dict] with string
    keys. *)
Inductive value : Type :=
| VNone
| VBool (b : bool)
| VInt (z : Z)
| VFloat (f : float)
| VStr (s : string)
| VList (l : list value)
| VDict (d : gmap string value).

(** Exceptions: the builtins the modelled code can raise, and the classes
    of [exceptions.py].  [EHTTPException] is an instance of exactly the
    base class [HTTPException]; [EForbidden] and [ERateLimited] are its
    subclasses. *)
Inductive exn : Type :=
| EAttributeError
| ETypeError (msg : string)
| EValueError
| EOverflowError
| ERuntimeError (msg : string)
| EHTTPException (status : Z) (message : value) (response_data : value)
| EForbidden (message : value)
| ERateLimited (message : value) (retry_after : float) (bucket : value).

Inductive result (A : Type) : Type :=
| Ok (a : A)
| Raise (e : exn).
Arguments Ok {A} a.
Arguments Raise {A} e.

#[global] Instance result_ret : MRet result := fun A a => Ok a.

#[global] Instance result_bind : MBind result := fun A B k r =>
  match r with
  | Ok a => k a
  | Raise e => Raise e
  end.

#[global] Instance result_fmap : FMap result := fun A B f r =>
  match r with
  | Ok a => Ok (f a)
  | Raise e => Raise e
  end.

(** [bool(v)]. *)
Definition truthy (v : value) : bool :=
  match v with
  | VNone => false
  | VBool b => b
  | VInt z => negb (Z.eqb z 0)
  | VFloat f => negb (SFeqb f (S754_zero false))
  | VStr s => negb (String.eqb s "")
  | VList l => match l with [] => false | _ => true end
  | VDict d => match map_to_list d with [] => false | _ => true end
  end.

(** [a or b]. *)
Definition py_or (a b : value) : value := if truthy a then a else b.

(** [v is None]. *)
Definition is_None (v : value) : bool :=
  match v with VNone => true | _ => false end.

(** [obj.get(key, default)]: only a [dict] has the attribute [get]. *)
Definition py_get (obj : value) (key : string) (default : value) : result value :=
  match obj with
  | VDict d => Ok (match d !! key with Some v => v | None => default end)
  | _ => Raise EAttributeError
  end.

Definition float_of_Z (z : Z) : float :=
  binary_normalize float_prec float_emax z 0 false.

Definition is_infinity (f : float) : bool :=
  match f with S754_infinity _ => true | _ => false end.

Section Builtins.

(** [float(s)] for a string [s]: the parser of the interpreter, [None]
    where it raises [ValueError]. *)
Variable float_of_str : string -> option float.

(** [float(v)]. *)
Definition py_float (v : value) : result float :=
  match v with
  | VFloat f => Ok f
  | VInt z =>
      let f := float_of_Z z in
      if is_infinity f then Raise EOverflowError else Ok f
  | VBool b => Ok (float_of_Z (if b then 1 else 0))
  | VStr s =>
      match float_of_str s with
      | Some f => Ok f
      | None => Raise EValueError
      end
  | VNone =>
      Raise (ETypeError
               "float() argument must be a string or a real number, not 'NoneType'")
  | VList _ =>
      Raise (ETypeError
               "float() argument must be a string or a real number, not 'list'")
  | VDict _ =>
      Raise (ETypeError
               "float() argument must be a string or a real number, not 'dict'")
  end.

End Builtins.

(** [x > 0] for a float [x] ([nan > 0] is [False]). *)
Definition float_gt0 (f : float) : bool := SFltb (S754_zero false) f.

(** [x == 0] for a float [x]. *)
Definition float_eq0 (f : float) : bool := SFeqb f (S754_zero false).

(** ** exceptions.py *)

(** [HTTPException(status, message, response_data)]: the constructor keeps
    [response_data or {}]. *)
Definition HTTPException (status : Z) (message response_data : value) : exn :=
  EHTTPException status message (py_or response_data (VDict ∅)).

(** [Forbidden(message)] calls [HTTPException.__init__(403, message)]. *)
Definition Forbidden (message : value) : exn := EForbidden message.

(** [RateLimited(message, retry_after, bucket)]. *)
Definition RateLimited (message : value) (retry_after : float) (bucket : value) : exn :=
  ERateLimited message retry_after bucket.

(** The attribute [status] of an [HTTPException] instance. *)
Definition exn_status (e : exn) : option Z :=
  match e with
  | EHTTPException st _ _ => Some st
  | EForbidden _ => Some 403
  | ERateLimited _ _ _ => Some 429
  | _ => None
  end.

(** The attribute [message]. *)
Definition exn_message (e : exn) : option value :=
  match e with
  | EHTTPException _ m _ | EForbidden m | ERateLimited m _ _ => Some m
  | _ => None
  end.

(** The attribute [response_data]. *)
Definition exn_response_data (e : exn) : option value :=
  match e with
  | EHTTPException _ _ d => Some d
  | EForbidden _ => Some (VDict ∅)
  | ERateLimited _ ra b =>
      Some (VDict (<["retry_after" := VFloat ra]> (<["bucket" := b]> ∅)))
  | _ => None
  end.

(** [isinstance(e, RateLimited)]. *)
Definition is_RateLimited (e : exn) : bool :=
  match e with ERateLimited _ _ _ => true | _ => false end.

(** [isinstance(e, HTTPException)]. *)
Definition is_HTTPException (e : exn) : bool :=
  match e with
  | EHTTPException _ _ _ | EForbidden _ | ERateLimited _ _ _ => true
  | _ => false
  end.

(** ** http.py *)

Definition BASE_URL : string := "https://api.policeroleplay.community/v1".

Module Route.

Record t : Type := mk { method : string; path : string }.

Definition url (r : t) : string := BASE_URL +:+ path r.

End Route.

(** An [aiohttp.ClientSession].  [created_by_client] is a ghost field: it
    records whether [HTTPClient._get_session] constructed the session or
    the caller of [HTTPClient(...)] handed it in. *)
Record ClientSession : Type := {
  closed : bool;
  default_headers : gmap string string;
  created_by_client : bool
}.

(** What one HTTP exchange makes observable of the [aiohttp.ClientResponse]:
    [json] is the result of [await resp.json()], [None] when it raises
    [ContentTypeError] or [ValueError] (both are caught), and [text] the
    result of [await resp.text()] for a body that decodes in its charset.
    On a body that does not, [await resp.text()] (line 112, outside the
    [try]) raises [UnicodeDecodeError]; the record has no such response,
    so what is stated of a response whose text is read ([reads_text]
    below) is stated of a body that decodes. *)
Record ClientResponse : Type := {
  status : Z;
  reason : option string;
  content_type : string;
  content_length : option Z;
  headers : list (string * string);
  json : option value;
  text : string
}.

(** The awaited effects, in program order.  [Sleep delay] is
    [await asyncio.sleep(delay)]; what follows it in a trace happens once
    that sleep has completed, which an infinite [delay] never does. *)
Inductive effect : Type :=
| SessionOpen (hdrs : gmap string string)
| SessionClose
| Exchange (method url : string) (body : value) (hdrs : gmap string string)
| Sleep (delay : float).

Definition is_request (ev : effect) : bool :=
  match ev with Exchange _ _ _ _ => true | _ => false end.

Definition is_sleep (ev : effect) : bool :=
  match ev with Sleep _ => true | _ => false end.

(** Number of network attempts in a trace. *)
Definition attempts_of (tr : list effect) : nat := length (filter is_request tr).

(** Number of suspensions in a trace. *)
Definition sleeps_of (tr : list effect) : nat := length (filter is_sleep tr).

Definition lower_ascii (a : ascii) : ascii :=
  let n := nat_of_ascii a in
  if (65 <=? n)%nat && (n <=? 90)%nat then ascii_of_nat (n + 32) else a.

Fixpoint lower (s : string) : string :=
  match s with
  | EmptyString => EmptyString
  | String a s' => String (lower_ascii a) (lower s')
  end.

(** [resp.headers.get(name)]: header names compare case-insensitively and
    the first match wins. *)
Fixpoint headers_get (hs : list (string * string)) (name : string) : option string :=
  match hs with
  | [] => None
  | (k, v) :: hs' =>
      if String.eqb (lower k) (lower name) then Some v else headers_get hs' name
  end.

(** How one pass through the body of the attempt loop ends. *)
Inductive step : Type :=
| Return (v : value)
| Throw (e : exn)
| Continue (delay : float).

Definition lift (r : result step) : step :=
  match r with
  | Ok s => s
  | Raise e => Throw e
  end.

Module HTTPClient.

Record t : Type := mk {
  server_key : string;
  authorization : option string;
  _session : option ClientSession;
  _owned_session : bool
}.

(** [HTTPClient(server_key, authorization=..., session=...)]. *)
Definition __init__ (key : string) (auth : option string)
    (session : option ClientSession) : t :=
  {| server_key := key;
     authorization := auth;
     _session := session;
     _owned_session := match session with None => true | Some _ => false end |}.

Definition _headers (c : t) : gmap string string :=
  let hdrs : gmap string string :=
    <["Content-Type" := "application/json"]> {["server-key" := server_key c]} in
  match authorization c with
  | Some a => if String.eqb a "" then hdrs else <["Authorization" := a]> hdrs
  | None => hdrs
  end.

Definition new_session (c : t) : ClientSession :=
  {| closed := false; default_headers := _headers c; created_by_client := true |}.

Definition _get_session (c : t) : ClientSession * t * list effect :=
  let fresh :=
    (new_session c,
     {| server_key := server_key c;
        authorization := authorization c;
        _session := Some (new_session c);
        _owned_session := _owned_session c |},
     [SessionOpen (_headers c)]) in
  match _session c with
  | None => fresh
  | Some s => if closed s then fresh else (s, c, [])
  end.

(** Lines 105-112: the decoded payload [data] of a response. *)
Definition decode (resp : ClientResponse) : value :=
  let data :=
    if String.eqb (content_type resp) "application/json"
    then match json resp with Some v => v | None => VNone end
    else VNone in
  let has_length :=
    match content_length resp with
    | Some n => negb (Z.eqb n 0)
    | None => false
    end in
  if is_None data && has_length
  then VDict {["message" := VStr (text resp)]}
  else data.

(** The exchange [request] performs on every attempt: [session.request]
    with the route's method and url, the body and [self._headers()]. *)
Definition exchange_of (c : t) (route : Route.t) (body : value) : effect :=
  Exchange (Route.method route) (Route.url route) body (_headers c).

Section WithBuiltins.

Variable float_of_str : string -> option float.

(** Lines 121-123: [retry_after] and [bucket] of a 429 response. *)
Definition rate_limit_info (resp : ClientResponse) : result (float * value) :=
  let body := py_or (decode resp) (VDict ∅) in
  ra ← py_get body "retry_after" (VInt 5);
  retry_after ← py_float float_of_str ra;
  b ← py_get body "bucket" VNone;
  let bucket :=
    if truthy b then b
    else match headers_get (headers resp) "X-RateLimit-Bucket" with
         | Some h => VStr h
         | None => VNone
         end in
  Ok (retry_after, bucket).

(** Lines 105-134: the body of the loop for one response. *)
Definition attempt_body (attempt : nat) (resp : ClientResponse) : step :=
  let data := decode resp in
  if Z.eqb (status resp) 200 then Return data
  else if Z.eqb (status resp) 403 then
    lift (m ← py_get (py_or data (VDict ∅)) "message" (VStr "Unauthorized");
          Ok (Throw (Forbidden m)))
  else if Z.eqb (status resp) 429 then
    lift ('(retry_after, bucket) ← rate_limit_info resp;
          if Nat.eqb attempt 0 && float_gt0 retry_after
          then Ok (Continue retry_after)
          else
            m ← py_get (py_or data (VDict ∅)) "message" (VStr "Rate limited");
            Ok (Throw (RateLimited m retry_after bucket)))
  else
    let fallback :=
      match reason resp with
      | Some r => if String.eqb r "" then "HTTP " +:+ pretty (status resp) else r
      | None => "HTTP " +:+ pretty (status resp)
      end in
    lift (m ← py_get (py_or data (VDict ∅)) "message" (VStr fallback);
          Ok (Throw (HTTPException (status resp) m data))).

(** Line 136: what is raised when the loop runs out of attempts. *)
Definition exhausted : exn := HTTPException 429 (VStr "Rate limited") VNone.

(** [for attempt in attempts: ...] followed by line 136.  [server n] is
    the response to the [n]-th exchange of this call and [sent] counts the
    exchanges made so far. *)
Fixpoint attempt_loop (server : nat -> ClientResponse) (ev : effect)
    (sent : nat) (attempts : list nat) : result value * list effect :=
  match attempts with
  | [] => (Raise exhausted, [])
  | attempt :: rest =>
      match attempt_body attempt (server sent) with
      | Return v => (Ok v, [ev])
      | Throw e => (Raise e, [ev])
      | Continue delay =>
          let '(r, tr) := attempt_loop server ev (S sent) rest in
          (r, ev :: Sleep delay :: tr)
      end
  end.

(** Every attempt of [attempts] ends in [continue]. *)
Fixpoint all_continue (server : nat -> ClientResponse) (sent : nat)
    (attempts : list nat) : bool :=
  match attempts with
  | [] => true
  | attempt :: rest =>
      match attempt_body attempt (server sent) with
      | Continue _ => all_continue server (S sent) rest
      | _ => false
      end
  end.

(** [await self.request(route, json=body)]. *)
Definition request (c : t) (route : Route.t) (body : value)
    (server : nat -> ClientResponse) : result value * t * list effect :=
  let '(_, c', tr0) := _get_session c in
  let '(r, tr) := attempt_loop server (exchange_of c route body) 0 (seq 0 2) in
  (r, c', (tr0 ++ tr)%list).

End WithBuiltins.

(** [await self.close()]. *)
Definition close (c : t) : t * list effect :=
  match _session c with
  | Some s =>
      if _owned_session c && negb (closed s)
      then ({| server_key := server_key c;
               authorization := authorization c;
               _session := Some {| closed := true;
                                   default_headers := default_headers s;
                                   created_by_client := created_by_client s |};
               _owned_session := _owned_session c |},
            [SessionClose])
      else (c, [])
  | None => (c, [])
  end.

End HTTPClient.

(** ** models.py

    The dataclasses do not check or convert their fields: a field holds
    whatever value the payload has under the key, so every field is a
    [value].  [data.get] raises [AttributeError] when [data] is not a
    [dict]. *)

Module Server.

Record t : Type := mk {
  name : value;
  owner_id : value;
  co_owner_ids : value;
  current_players : value;
  max_players : value;
  join_key : value;
  acc_verified_req : value;
  team_balance : value
}.

Definition from_api (data : value) : result t :=
  name ← py_get data "Name" (VStr "");
  owner_id ← py_get data "OwnerId" (VInt 0);
  co_owner_ids ← py_get data "CoOwnerIds" (VList []);
  current_players ← py_get data "CurrentPlayers" (VInt 0);
  max_players ← py_get data "MaxPlayers" (VInt 0);
  join_key ← py_get data "JoinKey" (VStr "");
  acc_verified_req ← py_get data "AccVerifiedReq" (VStr "");
  team_balance ← py_get data "TeamBalance" (VBool false);
  Ok (mk name owner_id co_owner_ids current_players max_players join_key
         acc_verified_req team_balance).

End Server.

Module Player.

Record t : Type := mk {
  player : value;
  permission : value;
  callsign : value;
  team : value
}.

Definition from_api (data : value) : result t :=
  player ← py_get data "Player" (VStr "");
  permission ← py_get data "Permission" (VStr "");
  callsign ← py_get data "Callsign" VNone;
  team ← py_get data "Team" (VStr "");
  Ok (mk player permission callsign team).

End Player.

Module JoinLog.

Record t : Type := mk { join : value; timestamp : value; player : value }.

Definition from_api (data : value) : result t :=
  join ← py_get data "Join" (VBool false);
  timestamp ← py_get data "Timestamp" (VInt 0);
  player ← py_get data "Player" (VStr "");
  Ok (mk join timestamp player).

End JoinLog.

Module KillLog.

Record t : Type := mk { killed : value; timestamp : value; killer : value }.

Definition from_api (data : value) : result t :=
  killed ← py_get data "Killed" (VStr "");
  timestamp ← py_get data "Timestamp" (VInt 0);
  killer ← py_get data "Killer" (VStr "");
  Ok (mk killed timestamp killer).

End KillLog.

Module CommandLog.

Record t : Type := mk { player : value; timestamp : value; command : value }.

Definition from_api (data : value) : result t :=
  player ← py_get data "Player" (VStr "");
  timestamp ← py_get data "Timestamp" (VInt 0);
  command ← py_get data "Command" (VStr "");
  Ok (mk player timestamp command).

End CommandLog.

Module ModCall.

Record t : Type := mk { caller : value; moderator : value; timestamp : value }.

Definition from_api (data : value) : result t :=
  caller ← py_get data "Caller" (VStr "");
  moderator ← py_get data "Moderator" VNone;
  timestamp ← py_get data "Timestamp" (VInt 0);
  Ok (mk caller moderator timestamp).

End ModCall.

Module Vehicle.

Record t : Type := mk { texture : value; name : value; owner : value }.

Definition from_api (data : value) : result t :=
  texture ← py_get data "Texture" VNone;
  name ← py_get data "Name" (VStr "");
  owner ← py_get data "Owner" (VStr "");
  Ok (mk texture name owner).

End Vehicle.

Module Staff.

Record t : Type := mk { co_owners : value; admins : value; mods : value }.

Definition from_api (data : value) : result t :=
  co_owners ← py_get data "CoOwners" (VList []);
  admins ← py_get data "Admins" (VDict ∅);
  mods ← py_get data "Mods" (VDict ∅);
  Ok (mk co_owners admins mods).

End Staff.

(** ** client.py *)

Module Client.

(** The typed operations, one per API route. *)
Inductive operation : Type :=
| OpGetServer
| OpGetPlayers
| OpRunCommand (command : string)
| OpGetJoinlogs
| OpGetQueue
| OpGetKilllogs
| OpGetCommandlogs
| OpGetModcalls
| OpGetBans
| OpGetVehicles
| OpGetStaff.

(** What a typed operation returns. *)
Inductive reply : Type :=
| RServer (s : Server.t)
| RPlayers (l : list Player.t)
| RJoinLogs (l : list JoinLog.t)
| RKillLogs (l : list KillLog.t)
| RCommandLogs (l : list CommandLog.t)
| RModCalls (l : list ModCall.t)
| RVehicles (l : list Vehicle.t)
| RStaff (s : Staff.t)
| RValue (v : value).

(** One thing a callback does with the client it is handed: await a typed
    operation (against a server answering [server]) or await [close()]. *)
Inductive call : Type :=
| Call (op : operation) (server : nat -> ClientResponse)
| CallClose.

(** An object passed to [Client.event]: its [__name__] if it has one,
    [asyncio.iscoroutinefunction] of it, and, when it is invoked with the
    client and awaited, the client calls it makes, in order, up to the
    first one that raises. *)
Record handler : Type := {
  __name__ : option string;
  iscoroutinefunction : bool;
  calls : list call
}.

(** [__init__] assigns every attribute, [_events] included, so the
    [hasattr(self, "_events")] test of [event] always holds. *)
Record t : Type := mk {
  server_key : option string;
  authorization : option string;
  _http : option HTTPClient.t;
  _on_ready : option handler;
  _events : gmap string handler;
  _closed : bool
}.

Definition __init__ (key auth : option string) : t :=
  {| server_key := key;
     authorization := auth;
     _http := None;
     _on_ready := None;
     _events := ∅;
     _closed := false |}.

Definition set_http (c : t) (h : option HTTPClient.t) : t :=
  mk (server_key c) (authorization c) h (_on_ready c) (_events c) (_closed c).

Definition set_closed (c : t) (b : bool) : t :=
  mk (server_key c) (authorization c) (_http c) (_on_ready c) (_events c) b.

Definition set_on_ready (c : t) (h : handler) : t :=
  mk (server_key c) (authorization c) (_http c) (Some h) (_events c) (_closed c).

Definition set_event (c : t) (name : string) (h : handler) : t :=
  mk (server_key c) (authorization c) (_http c) (_on_ready c)
     (<[name := h]> (_events c)) (_closed c).

Definition set_credentials (c : t) (key auth : option string) : t :=
  mk (match key with Some k => Some k | None => server_key c end)
     (match auth with Some a => Some a | None => authorization c end)
     (_http c) (_on_ready c) (_events c) (_closed c).

(** [self.event(coro)]. *)
Definition event (c : t) (coro : handler) : result handler * t :=
  if negb (iscoroutinefunction coro)
  then (Raise (ETypeError "Event handler must be a coroutine function"), c)
  else match __name__ coro with
       | None => (Raise EAttributeError, c)
       | Some name =>
           if String.eqb name "on_ready"
           then (Ok coro, set_on_ready c coro)
           else (Ok coro, set_event c name coro)
       end.

(** [self._ensure_http()]. *)
Definition _ensure_http (c : t) : result HTTPClient.t * t :=
  match _http c with
  | Some h => (Ok h, c)
  | None =>
      match server_key c with
      | Some key =>
          if String.eqb key ""
          then (Raise (ERuntimeError "Server API has not been set."), c)
          else
            let h := HTTPClient.__init__ key (authorization c) None in
            (Ok h, set_http c (Some h))
      | None => (Raise (ERuntimeError "Server API has not been set."), c)
      end
  end.

(** [await self.close()]. *)
Definition close (c : t) : t * list effect :=
  if _closed c then (c, [])
  else match _http c with
       | Some h =>
           let '(_, tr) := HTTPClient.close h in
           (set_closed (set_http c None) true, tr)
       | None => (set_closed c true, [])
       end.

Section WithBuiltins.

Variable float_of_str : string -> option float.

(** [await self._ensure_http().request(route, json=body)]: the request
    mutates the [HTTPClient] that [self._http] refers to. *)
Definition _request (c : t) (route : Route.t) (body : value)
    (server : nat -> ClientResponse) : result value * t * list effect :=
  match _ensure_http c with
  | (Raise e, c') => (Raise e, c', [])
  | (Ok h, c') =>
      let '(r, h', tr) := HTTPClient.request float_of_str h route body server in
      (r, set_http c' (Some h'), tr)
  end.

(** [[f(e) for e in data] if isinstance(data, list) else []]. *)
Definition map_list {A : Type} (f : value -> result A) (data : value) : result (list A) :=
  match data with
  | VList l => mapM f l
  | _ => Ok []
  end.

Definition get_server (c : t) (server : nat -> ClientResponse)
    : result Server.t * t * list effect :=
  let '(r, c', tr) := _request c (Route.mk "GET" "/server") VNone server in
  (data ← r; Server.from_api data, c', tr).

Definition get_players (c : t) (server : nat -> ClientResponse)
    : result (list Player.t) * t * list effect :=
  let '(r, c', tr) := _request c (Route.mk "GET" "/server/players") VNone server in
  (data ← r; map_list Player.from_api data, c', tr).

Definition run_command (c : t) (command : string) (server : nat -> ClientResponse)
    : result value * t * list effect :=
  let '(r, c', tr) :=
    _request c (Route.mk "POST" "/server/command")
      (VDict {["command" := VStr command]}) server in
  (data ← r; Ok (py_or data (VDict ∅)), c', tr).

Definition get_joinlogs (c : t) (server : nat -> ClientResponse)
    : result (list JoinLog.t) * t * list effect :=
  let '(r, c', tr) := _request c (Route.mk "GET" "/server/joinlogs") VNone server in
  (data ← r; map_list JoinLog.from_api data, c', tr).

Definition get_queue (c : t) (server : nat -> ClientResponse)
    : result value * t * list effect :=
  let '(r, c', tr) := _request c (Route.mk "GET" "/server/queue") VNone server in
  (data ← r; Ok (match data with VList _ => data | _ => VList [] end), c', tr).

Definition get_killlogs (c : t) (server : nat -> ClientResponse)
    : result (list KillLog.t) * t * list effect :=
  let '(r, c', tr) := _request c (Route.mk "GET" "/server/killlogs") VNone server in
  (data ← r; map_list KillLog.from_api data, c', tr).

Definition get_commandlogs (c : t) (server : nat -> ClientResponse)
    : result (list CommandLog.t) * t * list effect :=
  let '(r, c', tr) := _request c (Route.mk "GET" "/server/commandlogs") VNone server in
  (data ← r; map_list CommandLog.from_api data, c', tr).

Definition get_modcalls (c : t) (server : nat -> ClientResponse)
    : result (list ModCall.t) * t * list effect :=
  let '(r, c', tr) := _request c (Route.mk "GET" "/server/modcalls") VNone server in
  (data ← r; map_list ModCall.from_api data, c', tr).

Definition get_bans (c : t) (server : nat -> ClientResponse)
    : result value * t * list effect :=
  let '(r, c', tr) := _request c (Route.mk "GET" "/server/bans") VNone server in
  (data ← r; Ok (match data with VDict _ => data | _ => VDict ∅ end), c', tr).

Definition get_vehicles (c : t) (server : nat -> ClientResponse)
    : result (list Vehicle.t) * t * list effect :=
  let '(r, c', tr) := _request c (Route.mk "GET" "/server/vehicles") VNone server in
  (data ← r; map_list Vehicle.from_api data, c', tr).

Definition get_staff (c : t) (server : nat -> ClientResponse)
    : result Staff.t * t * list effect :=
  let '(r, c', tr) := _request c (Route.mk "GET" "/server/staff") VNone server in
  (data ← r; Staff.from_api (py_or data (VDict ∅)), c', tr).

Definition as_reply {A : Type} (wrap : A -> reply)
    (x : result A * t * list effect) : result reply * t * list effect :=
  let '(r, c, tr) := x in (wrap <$> r, c, tr).

(** Dispatch of a typed operation to its method. *)
Definition perform (op : operation) (c : t) (server : nat -> ClientResponse)
    : result reply * t * list effect :=
  match op with
  | OpGetServer => as_reply RServer (get_server c server)
  | OpGetPlayers => as_reply RPlayers (get_players c server)
  | OpRunCommand command => as_reply RValue (run_command c command server)
  | OpGetJoinlogs => as_reply RJoinLogs (get_joinlogs c server)
  | OpGetQueue => as_reply RValue (get_queue c server)
  | OpGetKilllogs => as_reply RKillLogs (get_killlogs c server)
  | OpGetCommandlogs => as_reply RCommandLogs (get_commandlogs c server)
  | OpGetModcalls => as_reply RModCalls (get_modcalls c server)
  | OpGetBans => as_reply RValue (get_bans c server)
  | OpGetVehicles => as_reply RVehicles (get_vehicles c server)
  | OpGetStaff => as_reply RStaff (get_staff c server)
  end.

(** Awaiting a callback: its calls run on the client in order and the
    first exception ends it. *)
Fixpoint invoke (cs : list call) (c : t) : result unit * t * list effect :=
  match cs with
  | [] => (Ok tt, c, [])
  | Call op server :: rest =>
      let '(r, c', tr) := perform op c server in
      match r with
      | Ok _ =>
          let '(r', c'', tr') := invoke rest c' in
          (r', c'', (tr ++ tr')%list)
      | Raise e => (Raise e, c', tr)
      end
  | CallClose :: rest =>
      let '(c', tr) := close c in
      let '(r', c'', tr') := invoke rest c' in
      (r', c'', (tr ++ tr')%list)
  end.

(** [await self._start()]. *)
Definition _start (c : t) : result unit * t * list effect :=
  match _ensure_http c with
  | (Raise e, c') => (Raise e, c', [])
  | (Ok _, c') =>
      match _on_ready c' with
      | Some h => invoke (calls h) c'
      | None => (Ok tt, c', [])
      end
  end.

(** [self.run(key, authorization=auth)], taken to the point where it
    returns or raises: either [_start] raised, or the wait on
    [asyncio.Future()] was ended by cancellation or [KeyboardInterrupt].
    On each path [close()] is awaited until [_closed] holds (in the
    [finally] of [_runner], or in the [finally] of [run] under
    [if not self._closed]), which is one call of the idempotent [close]. *)
Definition run (c : t) (key auth : option string) : result unit * t * list effect :=
  let c1 := set_credentials c key auth in
  let '(r, c2, tr) := _start c1 in
  let '(c3, tr') := close c2 in
  (r, c3, (tr ++ tr')%list).

(** The methods of [Client] as steps on the client state. *)
Inductive action : Type :=
| DoEvent (coro : handler)
| DoEnsureHttp
| DoStart
| DoRun (key auth : option string)
| DoClose
| DoPerform (op : operation) (server : nat -> ClientResponse).

Definition after (a : action) (c : t) : t :=
  match a with
  | DoEvent coro => (event c coro).2
  | DoEnsureHttp => (_ensure_http c).2
  | DoStart => (_start c).1.2
  | DoRun key auth => (run c key auth).1.2
  | DoClose => (close c).1
  | DoPerform op server => (perform op c server).1.2
  end.

(** The state after a sequence of method calls. *)
Definition after_all (acts : list action) (c : t) : t :=
  fold_left (fun c a => after a c) acts c.

End WithBuiltins.

End Client.

(** * Observations for the further properties *)

Definition is_session_open (ev : effect) : bool :=
  match ev with SessionOpen _ => true | _ => false end.

Definition is_session_close (ev : effect) : bool :=
  match ev with SessionClose => true | _ => false end.

(** Number of sessions opened in a trace. *)
Definition opens_of (tr : list effect) : nat := length (filter is_session_open tr).

(** Number of sessions closed in a trace. *)
Definition closes_of (tr : list effect) : nat := length (filter is_session_close tr).

(** The [Route] each typed operation constructs (client.py, lines 151-260). *)
Definition route_of (op : Client.operation) : Route.t :=
  match op with
  | Client.OpGetServer => Route.mk "GET" "/server"
  | Client.OpGetPlayers => Route.mk "GET" "/server/players"
  | Client.OpRunCommand _ => Route.mk "POST" "/server/command"
  | Client.OpGetJoinlogs => Route.mk "GET" "/server/joinlogs"
  | Client.OpGetQueue => Route.mk "GET" "/server/queue"
  | Client.OpGetKilllogs => Route.mk "GET" "/server/killlogs"
  | Client.OpGetCommandlogs => Route.mk "GET" "/server/commandlogs"
  | Client.OpGetModcalls => Route.mk "GET" "/server/modcalls"
  | Client.OpGetBans => Route.mk "GET" "/server/bans"
  | Client.OpGetVehicles => Route.mk "GET" "/server/vehicles"
  | Client.OpGetStaff => Route.mk "GET" "/server/staff"
  end.

(** The [json=] argument each typed operation passes. *)
Definition body_of (op : Client.operation) : value :=
  match op with
  | Client.OpRunCommand command => VDict {["command" := VStr command]}
  | _ => VNone
  end.

(** [resp.reason or f"HTTP {resp.status}"] (http.py, line 133). *)
Definition reason_or_status (resp : ClientResponse) : string :=
  match reason resp with
  | Some r => if String.eqb r "" then "HTTP " +:+ pretty (status resp) else r
  | None => "HTTP " +:+ pretty (status resp)
  end.

(** 1 when the client holds a transport with an open session, else 0. *)
Definition session_held (c : Client.t) : nat :=
  match Client._http c with
  | Some h =>
      match HTTPClient._session h with
      | Some s => if closed s then 0%nat else 1%nat
      | None => 0%nat
      end
  | None => 0%nat
  end.

(** The client is not closed and holds a transport that owns its session
    and whose session, if any, is open: the states a client goes through
    between [_ensure_http] and [close] when nothing else touches it. *)
Definition owns_transport (c : Client.t) : Prop :=
  Client._closed c = false /\
  exists h, Client._http c = Some h /\
            HTTPClient._owned_session h = true /\
            forall s, HTTPClient._session h = Some s -> closed s = false.

Definition is_operation_call (x : Client.call) : bool :=
  match x with Client.Call _ _ => true | Client.CallClose => false end.

(** An exchange carries the key [k] in its [server-key] header and the
    token [a] (or none) in its [Authorization] header; other effects carry
    nothing. *)
Definition carries_credentials (k : string) (a : option string) (ev : effect) : Prop :=
  match ev with
  | Exchange _ _ _ hdrs =>
      hdrs !! "server-key" = Some k /\
      hdrs !! "Authorization" =
        match a with
        | Some t => if String.eqb t "" then None else Some t
        | None => None
        end
  | _ => True
  end.


(** The test of line 111: whether [await resp.text()] is evaluated. *)
Definition reads_text (resp : ClientResponse) : bool :=
  let data :=
    if String.eqb (content_type resp) "application/json"
    then match json resp with Some v => v | None => VNone end
    else VNone in
  is_None data &&
  match content_length resp with
  | Some n => negb (Z.eqb n 0)
  | None => false
  end.

(** * Sample inputs *)

(** A stand-in for the interpreter's [float(str)] on inputs that never
    reach it: none of the sample payloads below holds a string under
    [retry_after]. *)
Definition float_of_str_unused : string -> option float := fun _ => None.

Definition sample_route : Route.t := Route.mk "GET" "/server".

(** A transport that has not opened its session yet. *)
Definition sample_http : HTTPClient.t := HTTPClient.__init__ "ABC" None None.

Definition json_response (st : Z) (payload : value) : ClientResponse :=
  {| status := st;
     reason := None;
     content_type := "application/json";
     content_length := Some 64;
     headers := [];
     json := Some payload;
     text := "" |}.

(** A response without a body. *)
Definition empty_response (st : Z) : ClientResponse :=
  {| status := st;
     reason := None;
     content_type := "application/octet-stream";
     content_length := None;
     headers := [];
     json := None;
     text := "" |}.

(** 429 with [{"retry_after": 0}]. *)
Definition resp_429_zero : ClientResponse :=
  json_response 429 (VDict {["retry_after" := VInt 0]}).

(** 429 with [{"retry_after": 2, "bucket": "command"}]. *)
Definition resp_429_two : ClientResponse :=
  json_response 429
    (VDict (<["retry_after" := VInt 2]> {["bucket" := VStr "command"]})).

(** 429 with [{"retry_after": 7}] and the bucket in the header. *)
Definition resp_429_seven : ClientResponse :=
  {| status := 429;
     reason := Some "Too Many Requests";
     content_type := "application/json";
     content_length := Some 18;
     headers := [("x-ratelimit-bucket", "global")];
     json := Some (VDict {["retry_after" := VInt 7]});
     text := "" |}.

Definition float_2 : float := S754_finite false 4503599627370496 (-51).

(** A session the caller constructed and that is closed by the time it
    is handed to [HTTPClient(...)]. *)
Definition injected_closed_session : ClientSession :=
  {| closed := true; default_headers := ∅; created_by_client := false |}.

Definition injected_http : HTTPClient.t :=
  HTTPClient.__init__ "ABC" None (Some injected_closed_session).

Definition sample_client : Client.t := Client.__init__ (Some "ABC") None.

(** Spec section 8: the [/server] payload of the end-to-end scenario. *)
Definition server_payload : gmap string value :=
  <["Name" := VStr "Town"]> (<["OwnerId" := VInt 1]> (<["CoOwnerIds" := VList []]>
  (<["CurrentPlayers" := VInt 3]> (<["MaxPlayers" := VInt 32]>
  (<["JoinKey" := VStr "x"]> (<["AccVerifiedReq" := VStr "Email"]>
  {["TeamBalance" := VBool true]})))))).

(** Spec section 8: a ready callback that fetches the server and the
    players. *)
Definition ready_handler : Client.handler :=
  {| Client.__name__ := Some "on_ready";
     Client.iscoroutinefunction := true;
     Client.calls :=
       [Client.Call Client.OpGetServer
          (fun _ => json_response 200 (VDict server_payload));
        Client.Call Client.OpGetPlayers
          (fun _ => json_response 200 (VList []))] |}.

(** [async def on_tick(client): pass]. *)
Definition tick_handler : Client.handler :=
  {| Client.__name__ := Some "on_tick";
     Client.iscoroutinefunction := true;
     Client.calls := [] |}.

(** [def on_ready(client): pass], not a coroutine function. *)
Definition plain_function : Client.handler :=
  {| Client.__name__ := Some "on_ready";
     Client.iscoroutinefunction := false;
     Client.calls := [] |}.

(** A server that answers the first exchange with [resp_429_two] and
    every later one with [resp_429_seven]. *)
Definition throttling_server (n : nat) : ClientResponse :=
  match n with
  | O => resp_429_two
  | S _ => resp_429_seven
  end.

(** A client that has already fetched the players, so that it holds a
    transport with an open session. *)
Definition used_client : Client.t :=
  (Client.get_players float_of_str_unused sample_client
     (fun _ => json_response 200 (VList []))).1.2.

(** 429 with [{"retry_after": -1}]. *)
Definition resp_429_negative : ClientResponse :=
  json_response 429 (VDict {["retry_after" := VInt (-1)]}).

(** 429 with [{"retry_after": null}]. *)
Definition resp_429_null : ClientResponse :=
  json_response 429 (VDict {["retry_after" := VNone]}).

(** A server that answers 429 with [retry_after] 2 and then 200 with the
    server payload. *)
Definition recovering_server (n : nat) : ClientResponse :=
  match n with
  | O => resp_429_two
  | S _ => json_response 200 (VDict server_payload)
  end.

Definition float_minus_1 : float := S754_finite true 4503599627370496 (-52).

(** A transport with an authorization token. *)
Definition authorized_http : HTTPClient.t :=
  HTTPClient.__init__ "ABC" (Some "token") None.

(** A client without a key. *)
Definition keyless_client : Client.t := Client.__init__ None None.

(** The sample client with [ready_handler] registered. *)
Definition client_with_ready : Client.t :=
  (Client.event sample_client ready_handler).2.

(** Spec section 8: the one player of the end-to-end scenario. *)
Definition bob_payload : gmap string value :=
  <["Player" := VStr "Bob:123"]> (<["Permission" := VStr "Normal"]>
  {["Team" := VStr "Sheriff"]}).

(** A second coroutine function named [on_tick]. *)
Definition other_tick_handler : Client.handler :=
  {| Client.__name__ := Some "on_tick";
     Client.iscoroutinefunction := true;
     Client.calls := [Client.CallClose] |}.

(** The sample client after a run-time change of its credentials, as
    [run("XYZ")] makes it, while it still holds the transport built with
    "ABC". *)
Definition rekeyed_client : Client.t :=
  Client.set_credentials used_client (Some "XYZ") None.

(** A server that answers 429 with [retry_after] 2 and then 403 with
    [{"message": "Bad key"}]. *)
Definition forbidding_server (n : nat) : ClientResponse :=
  match n with
  | O => resp_429_two
  | S _ => json_response 403 (VDict {["message" := VStr "Bad key"]})
  end.


(** * Properties *)

(** ** The exception classes *)

(** [Forbidden] fixes the status 403 and keeps no response data;
    [RateLimited] fixes 429 and keeps [retry_after] and [bucket] as its
    response data. *)
Lemma exception_attributes (m : value) (ra : float) (b : value) :
  exn_status (Forbidden m) = Some 403 /\
  exn_message (Forbidden m) = Some m /\
  exn_response_data (Forbidden m) = Some (VDict ∅) /\
  exn_status (RateLimited m ra b) = Some 429 /\
  exn_response_data (RateLimited m ra b) =
    Some (VDict (<["retry_after" := VFloat ra]> {["bucket" := b]})) /\
  exn_status (HTTPException 429 m VNone) = Some 429 /\
  exn_response_data (HTTPException 429 m VNone) = Some (VDict ∅).
Proof. repeat split. Qed.

(** ** The request layer *)

Section Transport.

Variable float_of_str : string -> option float.

Implicit Types (c : HTTPClient.t) (route : Route.t) (body : value).
Implicit Types (server : nat -> ClientResponse) (resp : ClientResponse).

Lemma request_eq c route body server :
  HTTPClient.request float_of_str c route body server =
  ((HTTPClient.attempt_loop float_of_str server (HTTPClient.exchange_of c route body) 0 [0; 1]%nat).1,
   (HTTPClient._get_session c).1.2,
   ((HTTPClient._get_session c).2 ++
    (HTTPClient.attempt_loop float_of_str server (HTTPClient.exchange_of c route body) 0 [0; 1]%nat).2)%list).
Proof.
  unfold HTTPClient.request.
  destruct (HTTPClient._get_session c) as [[s c'] tr0].
  change (seq 0 2) with [0; 1]%nat.
  destruct (HTTPClient.attempt_loop _ _ _ _ _) as [r tr].
  reflexivity.
Qed.

Lemma get_session_trace c :
  (HTTPClient._get_session c).2 = [] \/
  (HTTPClient._get_session c).2 = [SessionOpen (HTTPClient._headers c)].
Proof.
  unfold HTTPClient._get_session.
  destruct (HTTPClient._session c) as [s|]; [destruct (closed s)|]; simpl; auto.
Qed.

Lemma get_session_attempts c :
  attempts_of (HTTPClient._get_session c).2 = 0%nat /\
  sleeps_of (HTTPClient._get_session c).2 = 0%nat.
Proof.
  destruct (get_session_trace c) as [-> | ->]; split; reflexivity.
Qed.

Lemma attempts_of_app (tr1 tr2 : list effect) :
  attempts_of (tr1 ++ tr2) = (attempts_of tr1 + attempts_of tr2)%nat.
Proof. unfold attempts_of. by rewrite filter_app, length_app. Qed.

Lemma sleeps_of_app (tr1 tr2 : list effect) :
  sleeps_of (tr1 ++ tr2) = (sleeps_of tr1 + sleeps_of tr2)%nat.
Proof. unfold sleeps_of. by rewrite filter_app, length_app. Qed.

(** Only the first attempt can end in [continue]. *)
Lemma attempt_body_continue attempt resp delay :
  HTTPClient.attempt_body float_of_str attempt resp = Continue delay ->
  attempt = 0%nat /\ status resp = 429 /\ float_gt0 delay = true /\
  exists bucket, HTTPClient.rate_limit_info float_of_str resp = Ok (delay, bucket).
Proof.
  unfold HTTPClient.attempt_body.
  destruct (Z.eqb (status resp) 200) eqn:E200; [discriminate|].
  destruct (Z.eqb (status resp) 403) eqn:E403.
  { destruct (py_get _ _ _); discriminate. }
  destruct (Z.eqb (status resp) 429) eqn:E429.
  2: { destruct (py_get _ _ _); discriminate. }
  destruct (HTTPClient.rate_limit_info float_of_str resp) as [[ra bkt]|e];
    simpl; [|discriminate].
  destruct (Nat.eqb attempt 0) eqn:Ea; simpl.
  - destruct (float_gt0 ra) eqn:Hgt; simpl.
    + intros [= <-]. apply Nat.eqb_eq in Ea. apply Z.eqb_eq in E429. eauto.
    + destruct (py_get _ _ _); discriminate.
  - destruct (py_get _ _ _); discriminate.
Qed.

(** A successfully parsed 429 body is a mapping. *)
Lemma rate_limit_info_dict resp x :
  HTTPClient.rate_limit_info float_of_str resp = Ok x ->
  exists d, py_or (HTTPClient.decode resp) (VDict ∅) = VDict d.
Proof.
  unfold HTTPClient.rate_limit_info.
  destruct (py_or (HTTPClient.decode resp) (VDict ∅)); simpl;
    try discriminate; eauto.
Qed.

Lemma attempt_body_200 attempt resp :
  status resp = 200 ->
  HTTPClient.attempt_body float_of_str attempt resp = Return (HTTPClient.decode resp).
Proof. intros H. unfold HTTPClient.attempt_body. by rewrite H. Qed.

Lemma attempt_body_429 attempt resp t b :
  status resp = 429 ->
  HTTPClient.rate_limit_info float_of_str resp = Ok (t, b) ->
  HTTPClient.attempt_body float_of_str attempt resp =
  if Nat.eqb attempt 0 && float_gt0 t then Continue t
  else match py_get (py_or (HTTPClient.decode resp) (VDict ∅)) "message"
               (VStr "Rate limited") with
       | Ok m => Throw (RateLimited m t b)
       | Raise e => Throw e
       end.
Proof.
  intros Hst Hinfo. unfold HTTPClient.attempt_body.
  rewrite Hst, Hinfo. simpl.
  destruct (Nat.eqb attempt 0 && float_gt0 t); [reflexivity|].
  destruct (py_get _ _ _); reflexivity.
Qed.

Lemma float_eq0_not_gt0 (f : float) : float_eq0 f = true -> float_gt0 f = false.
Proof.
  unfold float_eq0, float_gt0, SFeqb, SFltb.
  destruct f as [[]|[]| |[] m e]; simpl; intros H; try reflexivity; discriminate.
Qed.

(** ** C8 *)

(** C8: a response with status 200 whose content type is
    [application/json] and whose body decodes to a JSON object is returned
    by [request] as that very object, after a single exchange and without
    any wait. *)
Theorem request_200_returns_json_object c route body server d :
  status (server 0%nat) = 200 ->
  content_type (server 0%nat) = "application/json" ->
  json (server 0%nat) = Some (VDict d) ->
  (HTTPClient.request float_of_str c route body server).1.1 = Ok (VDict d) /\
  attempts_of (HTTPClient.request float_of_str c route body server).2 = 1%nat /\
  sleeps_of (HTTPClient.request float_of_str c route body server).2 = 0%nat.
Proof.
  intros Hst Hct Hjs.
  assert (Hdec : HTTPClient.decode (server 0%nat) = VDict d).
  { unfold HTTPClient.decode. by rewrite Hct, Hjs. }
  rewrite request_eq. simpl.
  rewrite (attempt_body_200 _ _ Hst), Hdec. simpl.
  rewrite attempts_of_app, sleeps_of_app.
  destruct (get_session_attempts c) as [-> ->]. done.
Qed.

(** ** C5 *)


(** ** C1 *)

(** C1, as the code has it: when the first attempt yields 429 and its
    [retry_after] parses to zero, [request] neither waits nor retries: it
    raises [RateLimited] with that attempt's [retry_after] and [bucket]
    after exactly one exchange. *)
Theorem request_429_zero_raises_at_once c route body server t b :
  status (server 0%nat) = 429 ->
  HTTPClient.rate_limit_info float_of_str (server 0%nat) = Ok (t, b) ->
  float_eq0 t = true ->
  let out := HTTPClient.request float_of_str c route body server in
  (exists m, out.1.1 = Raise (RateLimited m t b)) /\
  out.2 = ((HTTPClient._get_session c).2 ++ [HTTPClient.exchange_of c route body])%list /\
  attempts_of out.2 = 1%nat /\
  sleeps_of out.2 = 0%nat.
Proof.
  intros Hst Hinfo Hz out. subst out.
  rewrite request_eq. simpl.
  rewrite (attempt_body_429 _ _ _ _ Hst Hinfo), (float_eq0_not_gt0 _ Hz).
  destruct (rate_limit_info_dict _ _ Hinfo) as [d ->]. simpl.
  rewrite attempts_of_app, sleeps_of_app.
  destruct (get_session_attempts c) as [-> ->].
  split; [eauto|]. done.
Qed.

(** ** The statement after the loop *)

Lemma py_get_raise obj key dflt e :
  py_get obj key dflt = Raise e -> is_HTTPException e = false.
Proof. destruct obj; simpl; intros [= <-]; reflexivity. Qed.

Lemma py_float_raise v e :
  py_float float_of_str v = Raise e -> is_HTTPException e = false.
Proof.
  destruct v as [| |z| |s| |]; simpl; try (intros [= <-]; reflexivity).
  - destruct (is_infinity _); intros [= <-]; reflexivity.
  - destruct (float_of_str s); intros [= <-]; reflexivity.
Qed.

Lemma rate_limit_info_raise resp e :
  HTTPClient.rate_limit_info float_of_str resp = Raise e ->
  is_HTTPException e = false.
Proof.
  unfold HTTPClient.rate_limit_info.
  destruct (py_get _ "retry_after" _) as [ra|e1] eqn:H1; simpl.
  2: { intros [= <-]. by eapply py_get_raise. }
  destruct (py_float float_of_str ra) as [f|e2] eqn:H2; simpl.
  2: { intros [= <-]. by eapply py_float_raise. }
  destruct (py_get _ "bucket" _) as [bk|e3] eqn:H3; simpl; [discriminate|].
  intros [= <-]. by eapply py_get_raise.
Qed.

Lemma two_attempts_never_exhaust server :
  HTTPClient.all_continue float_of_str server 0 [0; 1]%nat = false.
Proof.
  simpl.
  destruct (HTTPClient.attempt_body float_of_str 0 (server 0%nat)); try reflexivity.
  destruct (HTTPClient.attempt_body float_of_str 1 (server 1%nat)) eqn:E1;
    try reflexivity.
  apply attempt_body_continue in E1 as [? _]. discriminate.
Qed.

Lemma attempt_body_throw_429 attempt resp e :
  HTTPClient.attempt_body float_of_str attempt resp = Throw e ->
  exn_status e = Some 429 -> is_RateLimited e = true.
Proof.
  unfold HTTPClient.attempt_body.
  unfold Forbidden, RateLimited, HTTPException.
  destruct (Z.eqb (status resp) 200) eqn:E200; [discriminate|].
  destruct (Z.eqb (status resp) 403) eqn:E403.
  { destruct (py_get _ _ _) eqn:Hg; simpl; intros [= <-]; [discriminate|].
    apply py_get_raise in Hg. by destruct e0. }
  destruct (Z.eqb (status resp) 429) eqn:E429.
  - destruct (HTTPClient.rate_limit_info float_of_str resp) as [[ra bkt]|e0] eqn:Hi;
      simpl.
    2: { intros [= <-]. apply rate_limit_info_raise in Hi. by destruct e0. }
    destruct (Nat.eqb attempt 0 && float_gt0 ra); simpl; [discriminate|].
    destruct (py_get _ _ _) eqn:Hg; simpl; intros [= <-]; [done|].
    apply py_get_raise in Hg. by destruct e0.
  - destruct (py_get _ _ _) eqn:Hg; simpl; intros [= <-].
    + simpl. intros [= H]. rewrite H in E429. discriminate.
    + apply py_get_raise in Hg. by destruct e0.
Qed.

(** X28: the statement after the loop (line 136) is dead code: with the
    two attempts [request] makes, the second attempt always returns or
    raises, so the loop never runs out and [request] never raises the
    base [HTTPException] with status 429 of that line; every exception
    with status 429 that [request] raises is a [RateLimited]. *)
Theorem request_never_reaches_fallback c route body server :
  HTTPClient.all_continue float_of_str server 0 (seq 0 2) = false /\
  (HTTPClient.request float_of_str c route body server).1.1 <>
    Raise (EHTTPException 429 (VStr "Rate limited") (VDict ∅)) /\
  (forall e,
     (HTTPClient.request float_of_str c route body server).1.1 = Raise e ->
     exn_status e = Some 429 -> is_RateLimited e = true).
Proof.
  split; [apply two_attempts_never_exhaust|].
  assert (H429 : forall e,
    (HTTPClient.request float_of_str c route body server).1.1 = Raise e ->
    exn_status e = Some 429 -> is_RateLimited e = true).
  { intros e. rewrite request_eq. simpl.
    destruct (HTTPClient.attempt_body float_of_str 0 (server 0%nat)) as [v|e0|dl] eqn:E0;
      simpl; [discriminate| |].
    { intros [= ->]. by eapply attempt_body_throw_429. }
    destruct (HTTPClient.attempt_body float_of_str 1 (server 1%nat)) as [v|e1|dl'] eqn:E1;
      simpl; [discriminate| |].
    { intros [= ->]. by eapply attempt_body_throw_429. }
    apply attempt_body_continue in E1 as [? _]. discriminate. }
  split; [|exact H429].
  intros Heq. specialize (H429 _ Heq eq_refl). discriminate.
Qed.

(** ** C2 *)

Lemma attempt_body_403 attempt resp d :
  status resp = 403 ->
  py_or (HTTPClient.decode resp) (VDict ∅) = VDict d ->
  HTTPClient.attempt_body float_of_str attempt resp =
  Throw (Forbidden (default (VStr "Unauthorized") (d !! "message"))).
Proof.
  intros Hst Hd. unfold HTTPClient.attempt_body. rewrite Hst, Hd. simpl.
  by destruct (d !! "message").
Qed.

(** C2, as the code has it: a 403 ends the call at the attempt that
    receives it, the first one or the retry after a finite wait, never
    with a result, so it is not retried; when the decoded body is a
    mapping (or is empty or absent, which [data or {}] turns into the
    empty mapping) the exception is [Forbidden] with the body's
    [message], and with "Unauthorized" when the body has none.  [n] is the
    attempt that receives the 403. *)
Theorem request_403_raises_forbidden c route body server (n : nat) :
  n = 0%nat \/
  (n = 1%nat /\
   exists t b,
     status (server 0%nat) = 429 /\
     HTTPClient.rate_limit_info float_of_str (server 0%nat) = Ok (t, b) /\
     float_gt0 t = true /\ is_infinity t = false) ->
  status (server n) = 403 ->
  let out := HTTPClient.request float_of_str c route body server in
  attempts_of out.2 = S n /\
  sleeps_of out.2 = n /\
  (exists e, out.1.1 = Raise e) /\
  (forall d,
     py_or (HTTPClient.decode (server n)) (VDict ∅) = VDict d ->
     out.1.1 = Raise (Forbidden (default (VStr "Unauthorized") (d !! "message")))) /\
  (truthy (HTTPClient.decode (server n)) = false ->
   out.1.1 = Raise (Forbidden (VStr "Unauthorized"))).
Proof.
  intros Hreach Hst out. subst out.
  assert (Hthrow : forall a, exists e,
    HTTPClient.attempt_body float_of_str a (server n) = Throw e /\
    forall d, py_or (HTTPClient.decode (server n)) (VDict ∅) = VDict d ->
              e = Forbidden (default (VStr "Unauthorized") (d !! "message"))).
  { intros a. unfold HTTPClient.attempt_body. rewrite Hst. simpl.
    destruct (py_or (HTTPClient.decode (server n)) (VDict ∅)) eqn:Hor; simpl;
      eexists; (split; [reflexivity|]); intros d0 Hd; try discriminate.
    injection Hd as ->. by destruct (d0 !! "message"). }
  assert (Hgoal : forall e tr,
    (forall d, py_or (HTTPClient.decode (server n)) (VDict ∅) = VDict d ->
               e = Forbidden (default (VStr "Unauthorized") (d !! "message"))) ->
    attempts_of tr = S n -> sleeps_of tr = n ->
    attempts_of ((HTTPClient._get_session c).2 ++ tr) = S n /\
    sleeps_of ((HTTPClient._get_session c).2 ++ tr) = n /\
    (exists e0, Raise (A := value) e = Raise e0) /\
    (forall d, py_or (HTTPClient.decode (server n)) (VDict ∅) = VDict d ->
       Raise (A := value) e =
       Raise (Forbidden (default (VStr "Unauthorized") (d !! "message")))) /\
    (truthy (HTTPClient.decode (server n)) = false ->
     Raise (A := value) e = Raise (Forbidden (VStr "Unauthorized")))).
  { intros e tr He Ha Hs.
    rewrite attempts_of_app, sleeps_of_app.
    destruct (get_session_attempts c) as [-> ->].
    do 2 (split; [done|]). split; [eauto|]. split.
    - intros d Hd. by rewrite (He d Hd).
    - intros Hfalsy.
      assert (Hempty : py_or (HTTPClient.decode (server n)) (VDict ∅) = VDict ∅)
        by (unfold py_or; by rewrite Hfalsy).
      by rewrite (He ∅ Hempty). }
  rewrite request_eq.
  destruct Hreach as [-> | (-> & t & b & H429 & Hinfo & Hgt & _)]; simpl.
  - destruct (Hthrow 0%nat) as (e & -> & He). simpl. by apply Hgoal.
  - rewrite (attempt_body_429 _ _ _ _ H429 Hinfo), Hgt. simpl.
    destruct (Hthrow 1%nat) as (e & -> & He). simpl. by apply Hgoal.
Qed.

End Transport.

(** ** C7 *)

Section Closing.

Variable float_of_str : string -> option float.

(** [HTTPClient.close] closes the session exactly when [_owned_session]
    is set and an open session is held; it cannot raise. *)
Lemma HTTPClient_close_spec (c : HTTPClient.t) :
  (HTTPClient.close c).2 =
  match HTTPClient._session c with
  | Some s =>
      if HTTPClient._owned_session c && negb (closed s) then [SessionClose] else []
  | None => []
  end.
Proof.
  unfold HTTPClient.close.
  destruct (HTTPClient._session c) as [s|]; [|reflexivity].
  by destruct (HTTPClient._owned_session c && negb (closed s)).
Qed.

(** A second [close()] does nothing. *)
Lemma HTTPClient_close_idempotent (c : HTTPClient.t) :
  HTTPClient.close (HTTPClient.close c).1 = ((HTTPClient.close c).1, []).
Proof.
  unfold HTTPClient.close.
  destruct (HTTPClient._session c) as [s|] eqn:Hs; simpl; [|by rewrite Hs].
  destruct (HTTPClient._owned_session c) eqn:Ho; simpl.
  - destruct (closed s) eqn:Hc; simpl.
    + by rewrite Hs, Ho, Hc.
    + reflexivity.
  - by rewrite Hs, Ho.
Qed.

(** A session handed to the constructor is never closed by [close()]. *)
Lemma HTTPClient_close_injected key auth (s : ClientSession) :
  HTTPClient.close (HTTPClient.__init__ key auth (Some s)) =
  (HTTPClient.__init__ key auth (Some s), []).
Proof. reflexivity. Qed.

(** A session opened by a transport that was constructed without one is
    closed by [close()]. *)
Lemma HTTPClient_close_own key auth route body server :
  let c := (HTTPClient.request float_of_str (HTTPClient.__init__ key auth None)
              route body server).1.2 in
  (HTTPClient.close c).2 = [SessionClose] /\
  exists s, HTTPClient._session (HTTPClient.close c).1 = Some s /\ closed s = true.
Proof.
  intros c. subst c. rewrite request_eq. simpl. eauto.
Qed.

(** [Client.close] is idempotent. *)
Lemma Client_close_idempotent (c : Client.t) :
  Client.close (Client.close c).1 = ((Client.close c).1, []).
Proof.
  unfold Client.close.
  destruct (Client._closed c) eqn:Hc; simpl.
  - by rewrite Hc.
  - destruct (Client._http c) as [h|]; [destruct (HTTPClient.close h)|]; reflexivity.
Qed.

(** C7 at the input where the code departs from it: the transport is
    constructed with a session that is already closed, so the first
    request makes [_get_session] construct a session of its own; [close()]
    then leaves that session open, because [_owned_session] still says the
    session was handed in. *)
Theorem close_leaves_recreated_session_open :
  let c1 := (HTTPClient.request float_of_str injected_http sample_route VNone
               (fun _ => empty_response 200)).1.2 in
  HTTPClient._session c1 =
    Some {| closed := false;
            default_headers := HTTPClient._headers injected_http;
            created_by_client := true |} /\
  HTTPClient._owned_session c1 = false /\
  HTTPClient.close c1 = (c1, []).
Proof. repeat split. Qed.

End Closing.

(** ** C6 *)

(** C6: every [from_api] maps the empty mapping to a record and raises
    nothing; each field holds the default its [data.get] names. *)
Theorem from_api_empty_mapping_gives_defaults :
  Server.from_api (VDict ∅) =
    Ok (Server.mk (VStr "") (VInt 0) (VList []) (VInt 0) (VInt 0)
                  (VStr "") (VStr "") (VBool false)) /\
  Player.from_api (VDict ∅) = Ok (Player.mk (VStr "") (VStr "") VNone (VStr "")) /\
  JoinLog.from_api (VDict ∅) = Ok (JoinLog.mk (VBool false) (VInt 0) (VStr "")) /\
  KillLog.from_api (VDict ∅) = Ok (KillLog.mk (VStr "") (VInt 0) (VStr "")) /\
  CommandLog.from_api (VDict ∅) = Ok (CommandLog.mk (VStr "") (VInt 0) (VStr "")) /\
  ModCall.from_api (VDict ∅) = Ok (ModCall.mk (VStr "") VNone (VInt 0)) /\
  Vehicle.from_api (VDict ∅) = Ok (Vehicle.mk VNone (VStr "") (VStr "")) /\
  Staff.from_api (VDict ∅) = Ok (Staff.mk (VList []) (VDict ∅) (VDict ∅)).
Proof. repeat split. Qed.

(** ** The typed operations and the lifecycle *)

Section ClientSurface.

Variable float_of_str : string -> option float.

Implicit Types (c : Client.t) (server : nat -> ClientResponse).

(** ** C4 *)

Lemma map_list_non_list {A : Type} (f : value -> result A) (data : value) :
  (forall l, data <> VList l) -> Client.map_list f data = Ok [].
Proof. intros Hnl. destruct data; try reflexivity. by destruct (Hnl l). Qed.

(** What holds of C4: on a payload that is not a list every list-shaped
    operation returns the empty list, and on a payload that is not a
    mapping [get_bans] returns the empty mapping. *)
Lemma non_list_payload_gives_empty c server data c' tr :
  (forall l, data <> VList l) ->
  (Client._request float_of_str c (Route.mk "GET" "/server/players") VNone server
     = (Ok data, c', tr) ->
   Client.get_players float_of_str c server = (Ok [], c', tr)) /\
  (Client._request float_of_str c (Route.mk "GET" "/server/joinlogs") VNone server
     = (Ok data, c', tr) ->
   Client.get_joinlogs float_of_str c server = (Ok [], c', tr)) /\
  (Client._request float_of_str c (Route.mk "GET" "/server/queue") VNone server
     = (Ok data, c', tr) ->
   Client.get_queue float_of_str c server = (Ok (VList []), c', tr)) /\
  (Client._request float_of_str c (Route.mk "GET" "/server/killlogs") VNone server
     = (Ok data, c', tr) ->
   Client.get_killlogs float_of_str c server = (Ok [], c', tr)) /\
  (Client._request float_of_str c (Route.mk "GET" "/server/commandlogs") VNone server
     = (Ok data, c', tr) ->
   Client.get_commandlogs float_of_str c server = (Ok [], c', tr)) /\
  (Client._request float_of_str c (Route.mk "GET" "/server/modcalls") VNone server
     = (Ok data, c', tr) ->
   Client.get_modcalls float_of_str c server = (Ok [], c', tr)) /\
  (Client._request float_of_str c (Route.mk "GET" "/server/vehicles") VNone server
     = (Ok data, c', tr) ->
   Client.get_vehicles float_of_str c server = (Ok [], c', tr)).
Proof.
  intros Hnl.
  repeat split; intros Hreq;
    unfold Client.get_players, Client.get_joinlogs, Client.get_queue,
      Client.get_killlogs, Client.get_commandlogs, Client.get_modcalls,
      Client.get_vehicles;
    rewrite Hreq; simpl; rewrite ?(map_list_non_list _ _ Hnl); try reflexivity.
  destruct data; try reflexivity. by destruct (Hnl l).
Qed.

Lemma non_mapping_payload_gives_empty_bans c server data c' tr :
  (forall d, data <> VDict d) ->
  Client._request float_of_str c (Route.mk "GET" "/server/bans") VNone server
    = (Ok data, c', tr) ->
  Client.get_bans float_of_str c server = (Ok (VDict ∅), c', tr).
Proof.
  intros Hnd Hreq. unfold Client.get_bans. rewrite Hreq. simpl.
  destruct data; try reflexivity. by destruct (Hnd d).
Qed.

(** C4 at the input where the code departs from it: the server answers
    [GET /server/staff] with the JSON array [[1]]; [request] returns the
    list, [get_bans] on the same payload returns the empty mapping, and
    [get_staff] raises [AttributeError] because [Staff.from_api] calls
    [get] on the list. *)
Theorem get_staff_raises_on_list_payload :
  let server := fun _ : nat => json_response 200 (VList [VInt 1]) in
  (Client._request float_of_str sample_client (Route.mk "GET" "/server/staff")
     VNone server).1.1 = Ok (VList [VInt 1]) /\
  (Client.get_staff float_of_str sample_client server).1.1 = Raise EAttributeError /\
  (Client.get_bans float_of_str sample_client server).1.1 = Ok (VDict ∅).
Proof. repeat split. Qed.

(** ** C9 *)

(** C9: [event] raises [TypeError] exactly when the handler is not a
    coroutine function, and then leaves the client as it was; a coroutine
    function named [on_ready] becomes [_on_ready] and the table is left
    alone; a coroutine function with another name is stored in [_events]
    under that name and [_on_ready] is left alone. *)
Theorem event_registers_coroutine_functions_only c (coro : Client.handler) :
  ((exists msg, (Client.event c coro).1 = Raise (ETypeError msg)) <->
   Client.iscoroutinefunction coro = false) /\
  (Client.iscoroutinefunction coro = false -> (Client.event c coro).2 = c) /\
  (Client.iscoroutinefunction coro = true ->
   Client.__name__ coro = Some "on_ready" ->
   (Client.event c coro).1 = Ok coro /\
   Client._on_ready (Client.event c coro).2 = Some coro /\
   Client._events (Client.event c coro).2 = Client._events c) /\
  (forall name,
     Client.iscoroutinefunction coro = true ->
     Client.__name__ coro = Some name ->
     name <> "on_ready" ->
     (Client.event c coro).1 = Ok coro /\
     Client._events (Client.event c coro).2 = <[name := coro]> (Client._events c) /\
     Client._events (Client.event c coro).2 !! name = Some coro /\
     Client._on_ready (Client.event c coro).2 = Client._on_ready c).
Proof.
  unfold Client.event.
  destruct (Client.iscoroutinefunction coro) eqn:Hco; simpl.
  - split; [|split; [discriminate|split]].
    + split; [|discriminate]. intros [msg H].
      destruct (Client.__name__ coro) as [n|]; [|discriminate].
      destruct (String.eqb n "on_ready"); discriminate.
    + intros _ ->. done.
    + intros name _ -> Hne.
      apply String.eqb_neq in Hne. rewrite Hne. simpl.
      repeat split. apply lookup_insert_eq.
  - split; [|split; [done|split]].
    + split; [done|eauto].
    + discriminate.
    + discriminate.
Qed.

(** ** C10 *)

Lemma ensure_http_closed c :
  Client._closed (Client._ensure_http c).2 = Client._closed c.
Proof.
  unfold Client._ensure_http.
  destruct (Client._http c); [reflexivity|].
  destruct (Client.server_key c) as [k|]; [|reflexivity].
  by destruct (String.eqb k "").
Qed.

Lemma request_closed c route body server :
  Client._closed (Client._request float_of_str c route body server).1.2 =
  Client._closed c.
Proof.
  unfold Client._request.
  pose proof (ensure_http_closed c) as H.
  destruct (Client._ensure_http c) as [[h|e] c1]; simpl in *; [|done].
  by destruct (HTTPClient.request _ _ _ _ _) as [[r h'] tr].
Qed.

(** Unfolds a typed operation down to its [_request]. *)
Ltac unfold_operation :=
  unfold Client.perform, Client.as_reply, Client.get_server, Client.get_players,
    Client.run_command, Client.get_joinlogs, Client.get_queue,
    Client.get_killlogs, Client.get_commandlogs, Client.get_modcalls,
    Client.get_bans, Client.get_vehicles, Client.get_staff.

(** State and trace of a typed operation are those of its [_request]. *)
Lemma perform_state_trace op c server :
  exists route body,
    (Client.perform float_of_str op c server).1.2 =
      (Client._request float_of_str c route body server).1.2 /\
    (Client.perform float_of_str op c server).2 =
      (Client._request float_of_str c route body server).2.
Proof.
  destruct op; unfold_operation;
    match goal with
    | |- context [Client._request _ _ ?r ?b _] => exists r, b
    end;
    by destruct (Client._request _ _ _ _ _) as [[r c'] tr].
Qed.

Lemma perform_closed op c server :
  Client._closed (Client.perform float_of_str op c server).1.2 = Client._closed c.
Proof.
  destruct (perform_state_trace op c server) as (route & body & -> & _).
  apply request_closed.
Qed.

Lemma close_closed c : Client._closed (Client.close c).1 = true.
Proof.
  unfold Client.close. destruct (Client._closed c) eqn:Hc; [done|].
  destruct (Client._http c) as [h|]; [destruct (HTTPClient.close h)|]; reflexivity.
Qed.

Lemma close_stays_closed c :
  Client._closed c = true -> Client.close c = (c, []).
Proof. intros H. unfold Client.close. by rewrite H. Qed.

Lemma invoke_closed cs c :
  Client._closed c = true ->
  Client._closed (Client.invoke float_of_str cs c).1.2 = true.
Proof.
  revert c. induction cs as [|[op server|] rest IH]; intros c Hc; simpl.
  - done.
  - pose proof (perform_closed op c server) as Hp.
    destruct (Client.perform float_of_str op c server) as [[r c1] tr].
    simpl in Hp. rewrite Hc in Hp.
    destruct r as [x|e]; [|done].
    specialize (IH c1 Hp).
    by destruct (Client.invoke float_of_str rest c1) as [[r' c2] tr'].
  - rewrite (close_stays_closed c Hc).
    specialize (IH c Hc).
    by destruct (Client.invoke float_of_str rest c) as [[r' c2] tr'].
Qed.

Lemma start_closed c :
  Client._closed c = true ->
  Client._closed (Client._start float_of_str c).1.2 = true.
Proof.
  intros Hc. unfold Client._start.
  pose proof (ensure_http_closed c) as H. rewrite Hc in H.
  destruct (Client._ensure_http c) as [[h|e] c1]; simpl in *; [|done].
  destruct (Client._on_ready c1); [|done].
  by apply invoke_closed.
Qed.

(** [run] always leaves the client closed. *)
Lemma run_closed c key auth :
  Client._closed (Client.run float_of_str c key auth).1.2 = true.
Proof.
  unfold Client.run.
  destruct (Client._start float_of_str _) as [[r c2] tr].
  pose proof (close_closed c2) as H.
  by destruct (Client.close c2) as [c3 tr'].
Qed.

Lemma event_closed c coro :
  Client._closed (Client.event c coro).2 = Client._closed c.
Proof.
  unfold Client.event.
  destruct (Client.iscoroutinefunction coro); [|done]. simpl.
  destruct (Client.__name__ coro) as [n|]; [|done].
  by destruct (String.eqb n "on_ready").
Qed.

Lemma after_closed a c :
  Client._closed c = true -> Client._closed (Client.after float_of_str a c) = true.
Proof.
  intros Hc. destruct a; simpl.
  - by rewrite event_closed.
  - by rewrite ensure_http_closed.
  - by apply start_closed.
  - apply run_closed.
  - apply close_closed.
  - by rewrite perform_closed.
Qed.

Lemma after_all_closed acts c :
  Client._closed c = true ->
  Client._closed (Client.after_all float_of_str acts c) = true.
Proof.
  unfold Client.after_all. revert c.
  induction acts as [|a acts IH]; intros c Hc; simpl; [done|].
  apply IH. by apply after_closed.
Qed.

Lemma request_at_least_one_attempt (h : HTTPClient.t) route body server :
  (1 <= attempts_of (HTTPClient.request float_of_str h route body server).2)%nat.
Proof.
  rewrite request_eq. simpl. rewrite attempts_of_app.
  destruct (HTTPClient.attempt_body float_of_str 0 (server 0%nat)); simpl;
    try (unfold HTTPClient.exchange_of, attempts_of; simpl; lia).
  destruct (HTTPClient.attempt_body float_of_str 1 (server 1%nat)); simpl;
    unfold HTTPClient.exchange_of, attempts_of; simpl; lia.
Qed.

(** With a key configured (or a transport at hand) [_request] reaches the
    network and leaves a transport behind. *)
Lemma request_proceeds c route body server key :
  Client.server_key c = Some key -> key <> "" ->
  (1 <= attempts_of (Client._request float_of_str c route body server).2)%nat /\
  is_Some (Client._http (Client._request float_of_str c route body server).1.2).
Proof.
  intros Hk Hne. unfold Client._request, Client._ensure_http.
  apply String.eqb_neq in Hne.
  destruct (Client._http c) as [h|]; [|rewrite Hk, Hne];
    match goal with
    | |- context [HTTPClient.request _ ?h0 _ _ _] =>
        pose proof (request_at_least_one_attempt h0 route body server) as H;
        destruct (HTTPClient.request float_of_str h0 route body server) as [[r h'] tr]
    end; simpl in *; eauto.
Qed.

(** Without a transport, [_request] runs on a fresh [HTTPClient] built
    from the credentials. *)
Lemma request_without_transport c route body server key :
  Client._http c = None ->
  Client.server_key c = Some key -> key <> "" ->
  let fresh := HTTPClient.__init__ key (Client.authorization c) None in
  (Client._request float_of_str c route body server).1.1 =
    (HTTPClient.request float_of_str fresh route body server).1.1 /\
  (Client._request float_of_str c route body server).2 =
    (HTTPClient.request float_of_str fresh route body server).2.
Proof.
  intros Hh Hk Hne fresh. unfold Client._request, Client._ensure_http.
  apply String.eqb_neq in Hne. rewrite Hh, Hk, Hne. fold fresh.
  by destruct (HTTPClient.request float_of_str fresh route body server) as [[r h'] tr].
Qed.

(** Result and trace of a typed operation depend on the client only
    through result and trace of [_request]. *)
Lemma perform_agrees op c1 c2 server :
  (forall route body,
     (Client._request float_of_str c1 route body server).1.1 =
       (Client._request float_of_str c2 route body server).1.1 /\
     (Client._request float_of_str c1 route body server).2 =
       (Client._request float_of_str c2 route body server).2) ->
  (Client.perform float_of_str op c1 server).1.1 =
    (Client.perform float_of_str op c2 server).1.1 /\
  (Client.perform float_of_str op c1 server).2 =
    (Client.perform float_of_str op c2 server).2.
Proof.
  intros H.
  destruct op; unfold_operation;
    match goal with
    | |- context [Client._request _ c1 ?r ?b _] =>
        specialize (H r b);
        destruct (Client._request float_of_str c1 r b server) as [[r1 s1] t1];
        destruct (Client._request float_of_str c2 r b server) as [[r2 s2] t2]
    end; simpl in *; destruct H as [-> ->]; done.
Qed.

(** C10: [close] leaves [_closed] set and no method ever clears it; yet
    with a server key configured every typed operation on the closed
    client reaches the network and leaves a transport behind.  Right after
    a [close] that ran (the client was not closed before) [_http] is
    [None], [_ensure_http] builds a fresh [HTTPClient] from the
    credentials, and every typed operation has the result and the effects
    it has on a newly constructed client with the same credentials. *)
Theorem closed_client_keeps_serving c key :
  Client.server_key c = Some key -> key <> "" ->
  let c' := (Client.close c).1 in
  let fresh := HTTPClient.__init__ key (Client.authorization c) None in
  Client._closed c' = true /\
  (forall acts, Client._closed (Client.after_all float_of_str acts c') = true) /\
  (forall op server,
     (1 <= attempts_of (Client.perform float_of_str op c' server).2)%nat /\
     is_Some (Client._http (Client.perform float_of_str op c' server).1.2) /\
     Client._closed (Client.perform float_of_str op c' server).1.2 = true) /\
  (Client._closed c = false ->
   Client._http c' = None /\
   Client._ensure_http c' = (Ok fresh, Client.set_http c' (Some fresh)) /\
   forall op server,
     (Client.perform float_of_str op c' server).1.1 =
       (Client.perform float_of_str op
          (Client.__init__ (Some key) (Client.authorization c)) server).1.1 /\
     (Client.perform float_of_str op c' server).2 =
       (Client.perform float_of_str op
          (Client.__init__ (Some key) (Client.authorization c)) server).2).
Proof.
  intros Hk Hne c' fresh.
  assert (Hc' : Client._closed c' = true) by apply close_closed.
  assert (Hk' : Client.server_key c' = Some key).
  { subst c'. unfold Client.close.
    destruct (Client._closed c); [done|].
    destruct (Client._http c) as [h|]; [destruct (HTTPClient.close h)|]; done. }
  assert (Ha' : Client.authorization c' = Client.authorization c).
  { subst c'. unfold Client.close.
    destruct (Client._closed c); [done|].
    destruct (Client._http c) as [h|]; [destruct (HTTPClient.close h)|]; done. }
  split; [done|]. split; [intros acts; by apply after_all_closed|]. split.
  - intros op server.
    destruct (perform_state_trace op c' server) as (route & body & Hs & Ht).
    rewrite Hs, Ht, request_closed.
    destruct (request_proceeds c' route body server key Hk' Hne) as [H1 H2].
    done.
  - intros Hopen.
    assert (Hh' : Client._http c' = None).
    { subst c'. unfold Client.close. rewrite Hopen.
      destruct (Client._http c) as [h|] eqn:Hh; [destruct (HTTPClient.close h)|]; done. }
    split; [done|]. split.
    + unfold Client._ensure_http. rewrite Hh', Hk', Ha'.
      apply String.eqb_neq in Hne. by rewrite Hne.
    + intros op server. apply perform_agrees. intros route body.
      destruct (request_without_transport c' route body server key Hh' Hk' Hne)
        as [-> ->].
      destruct (request_without_transport
                  (Client.__init__ (Some key) (Client.authorization c))
                  route body server key eq_refl eq_refl Hne) as [-> ->].
      simpl. by rewrite Ha'.
Qed.

End ClientSurface.

(** * The properties at concrete inputs *)

Lemma request_200_returns_json_object_witness :
  status (json_response 200 (VDict server_payload)) = 200 /\
  (HTTPClient.request float_of_str_unused sample_http sample_route VNone
     (fun _ => json_response 200 (VDict server_payload))).1.1 =
  Ok (VDict server_payload).
Proof.
  split; [reflexivity|].
  exact (proj1 (request_200_returns_json_object float_of_str_unused sample_http
                  sample_route VNone
                  (fun _ => json_response 200 (VDict server_payload))
                  server_payload eq_refl eq_refl eq_refl)).
Defined.



(** C1 as stated fails: the first attempt yields 429 with
    [{"retry_after": 0}]; [request] makes one exchange, not two, and
    raises [RateLimited] right away. *)
Lemma request_429_zero_counterexample :
  let out := HTTPClient.request float_of_str_unused sample_http sample_route VNone
               (fun _ => resp_429_zero) in
  status resp_429_zero = 429 /\
  HTTPClient.rate_limit_info float_of_str_unused resp_429_zero =
    Ok (S754_zero false, VNone) /\
  float_eq0 (S754_zero false) = true /\
  out.1.1 = Raise (RateLimited (VStr "Rate limited") (S754_zero false) VNone) /\
  attempts_of out.2 = 1%nat /\
  ~ attempts_of out.2 = 2%nat.
Proof.
  vm_compute. repeat split. discriminate.
Defined.

Lemma request_429_zero_raises_at_once_witness :
  HTTPClient.rate_limit_info float_of_str_unused resp_429_zero =
    Ok (S754_zero false, VNone) /\
  float_eq0 (S754_zero false) = true /\
  let out := HTTPClient.request float_of_str_unused sample_http sample_route VNone
               (fun _ => resp_429_zero) in
  (exists m, out.1.1 = Raise (RateLimited m (S754_zero false) VNone)) /\
  attempts_of out.2 = 1%nat /\
  sleeps_of out.2 = 0%nat.
Proof.
  assert (H0 : HTTPClient.rate_limit_info float_of_str_unused resp_429_zero =
               Ok (S754_zero false, VNone)) by (vm_compute; reflexivity).
  split; [exact H0|]. split; [reflexivity|].
  destruct (request_429_zero_raises_at_once float_of_str_unused sample_http
              sample_route VNone (fun _ => resp_429_zero) (S754_zero false) VNone
              eq_refl H0 eq_refl) as (Hr & _ & Ha & Hs).
  exact (conj Hr (conj Ha Hs)).
Defined.

Lemma event_registers_coroutine_functions_only_witness :
  Client._on_ready (Client.event sample_client ready_handler).2 = Some ready_handler /\
  Client._events (Client.event sample_client tick_handler).2 !! "on_tick" =
    Some tick_handler /\
  (exists msg, (Client.event sample_client plain_function).1 = Raise (ETypeError msg)).
Proof.
  destruct (event_registers_coroutine_functions_only sample_client ready_handler)
    as (_ & _ & Hready & _).
  destruct (event_registers_coroutine_functions_only sample_client tick_handler)
    as (_ & _ & _ & Htick).
  destruct (event_registers_coroutine_functions_only sample_client plain_function)
    as (Hplain & _).
  split; [exact (proj1 (proj2 (Hready eq_refl eq_refl)))|].
  split.
  - refine (proj1 (proj2 (proj2 (Htick "on_tick" eq_refl eq_refl _)))).
    discriminate.
  - apply Hplain. reflexivity.
Defined.

Lemma closed_client_keeps_serving_witness :
  Client.server_key used_client = Some "ABC" /\
  "ABC" <> "" /\
  Client._closed used_client = false /\
  let c' := (Client.close used_client).1 in
  Client._closed c' = true /\
  Client._http c' = None /\
  (Client.perform float_of_str_unused Client.OpGetServer c'
     (fun _ => json_response 200 (VDict server_payload))).1.1 =
  (Client.perform float_of_str_unused Client.OpGetServer sample_client
     (fun _ => json_response 200 (VDict server_payload))).1.1.
Proof.
  assert (Hne : "ABC" <> "") by discriminate.
  split; [reflexivity|]. split; [exact Hne|]. split; [reflexivity|].
  destruct (closed_client_keeps_serving float_of_str_unused used_client "ABC"
              eq_refl Hne) as (Hclosed & _ & _ & Hfresh).
  destruct (Hfresh eq_refl) as (Hnone & _ & Hsame).
  split; [exact Hclosed|]. split; [exact Hnone|].
  exact (proj1 (Hsame Client.OpGetServer
                  (fun _ => json_response 200 (VDict server_payload)))).
Defined.

(** Spec section 8, end to end: a closed client still answers
    [get_server], with [current_players] 3. *)
Example closed_client_get_server :
  Server.current_players <$>
    (Client.get_server float_of_str_unused (Client.close used_client).1
       (fun _ => json_response 200 (VDict server_payload))).1.1 =
  Ok (VInt 3).
Proof. vm_compute. reflexivity. Qed.

(** C2 as stated fails: a 403 without a body raises [Forbidden] with the
    message "Unauthorized"; the default message of the [Forbidden] class,
    "Invalid or unauthorized server key", is not used. *)
Lemma request_403_default_message_counterexample :
  let out := HTTPClient.request float_of_str_unused sample_http sample_route VNone
               (fun _ => empty_response 403) in
  status (empty_response 403) = 403 /\
  HTTPClient.decode (empty_response 403) = VNone /\
  out.1.1 = Raise (Forbidden (VStr "Unauthorized")) /\
  out.1.1 <> Raise (Forbidden (VStr "Invalid or unauthorized server key")).
Proof.
  vm_compute. repeat split. discriminate.
Defined.

Lemma request_403_raises_forbidden_witness :
  HTTPClient.rate_limit_info float_of_str_unused (forbidding_server 0) =
    Ok (float_2, VStr "command") /\
  status (forbidding_server 1) = 403 /\
  let out := HTTPClient.request float_of_str_unused sample_http sample_route VNone
               forbidding_server in
  attempts_of out.2 = 2%nat /\
  out.1.1 = Raise (Forbidden (VStr "Bad key")).
Proof.
  assert (H0 : HTTPClient.rate_limit_info float_of_str_unused (forbidding_server 0) =
               Ok (float_2, VStr "command")) by (vm_compute; reflexivity).
  split; [exact H0|]. split; [reflexivity|].
  destruct (request_403_raises_forbidden float_of_str_unused sample_http sample_route
              VNone forbidding_server 1%nat
              (or_intror (conj eq_refl
                 (ex_intro _ float_2 (ex_intro _ (VStr "command")
                    (conj eq_refl (conj H0 (conj eq_refl eq_refl)))))))
              eq_refl) as (Ha & _ & _ & Hd & _).
  split; [exact Ha|].
  exact (Hd {["message" := VStr "Bad key"]} eq_refl).
Defined.

(** A 403 whose JSON body is a string: [(data or {}).get] raises
    [AttributeError]. *)
Example request_403_string_body :
  (HTTPClient.request float_of_str_unused sample_http sample_route VNone
     (fun _ => json_response 403 (VStr "denied"))).1.1 = Raise EAttributeError.
Proof. reflexivity. Qed.

(** Spec section 8, end to end: the players payload maps to one [Player]
    whose [callsign] is [None]. *)
Example get_players_end_to_end :
  (Client.get_players float_of_str_unused sample_client
     (fun _ => json_response 200
        (VList [VDict (<["Player" := VStr "Bob:123"]>
                      (<["Permission" := VStr "Normal"]>
                       {["Team" := VStr "Sheriff"]}))]))).1.1 =
  Ok [Player.mk (VStr "Bob:123") (VStr "Normal") VNone (VStr "Sheriff")].
Proof. vm_compute. reflexivity. Qed.

(** Spec section 8, end to end: [run_command] posts the command and turns
    an absent payload into the empty mapping. *)
Example run_command_end_to_end :
  let out := Client.run_command float_of_str_unused sample_client "hint: hello"
               (fun _ => empty_response 200) in
  out.1.1 = Ok (VDict ∅) /\
  filter is_request out.2 =
    [Exchange "POST" "https://api.policeroleplay.community/v1/server/command"
       (VDict {["command" := VStr "hint: hello"]})
       (HTTPClient._headers sample_http)].
Proof. split; reflexivity. Qed.

(** * Further properties of the request layer *)

Section TransportMore.

Variable float_of_str : string -> option float.

Implicit Types (c : HTTPClient.t) (route : Route.t) (body : value).
Implicit Types (server : nat -> ClientResponse) (resp : ClientResponse).

Lemma attempt_body_return attempt resp v :
  HTTPClient.attempt_body float_of_str attempt resp = Return v ->
  status resp = 200 /\ v = HTTPClient.decode resp.
Proof.
  unfold HTTPClient.attempt_body.
  destruct (Z.eqb (status resp) 200) eqn:E200.
  { intros [= <-]. by apply Z.eqb_eq in E200. }
  destruct (Z.eqb (status resp) 403).
  { destruct (py_get _ _ _); discriminate. }
  destruct (Z.eqb (status resp) 429).
  2: { destruct (py_get _ _ _); discriminate. }
  destruct (HTTPClient.rate_limit_info float_of_str resp) as [[ra bkt]|e];
    simpl; [|discriminate].
  destruct (Nat.eqb attempt 0 && float_gt0 ra); simpl; [discriminate|].
  destruct (py_get _ _ _); discriminate.
Qed.

(** The four ways the two-attempt loop can run. *)
Lemma attempt_loop_cases server ev :
  let first := HTTPClient.attempt_body float_of_str 0 (server 0%nat) in
  let second := HTTPClient.attempt_body float_of_str 1 (server 1%nat) in
  let out := HTTPClient.attempt_loop float_of_str server ev 0 [0; 1]%nat in
  (exists v, first = Return v /\ out = (Ok v, [ev])) \/
  (exists e, first = Throw e /\ out = (Raise e, [ev])) \/
  (exists t v, first = Continue t /\ second = Return v /\
               out = (Ok v, [ev; Sleep t; ev])) \/
  (exists t e, first = Continue t /\ second = Throw e /\
               out = (Raise e, [ev; Sleep t; ev])).
Proof.
  simpl.
  destruct (HTTPClient.attempt_body float_of_str 0 (server 0%nat)) as [v|e|t];
    [left; eauto | right; left; eauto |].
  destruct (HTTPClient.attempt_body float_of_str 1 (server 1%nat)) as [v|e|t'] eqn:E1.
  - right; right; left. eauto 6.
  - right; right; right. eauto 6.
  - apply attempt_body_continue in E1 as [? _]. discriminate.
Qed.

Lemma trace_counts_one (ev : effect) :
  is_request ev = true ->
  attempts_of [ev] = 1%nat /\ sleeps_of [ev] = 0%nat.
Proof. destruct ev; try discriminate. intros _. split; reflexivity. Qed.

Lemma trace_counts_two (ev : effect) (t : float) :
  is_request ev = true ->
  attempts_of [ev; Sleep t; ev] = 2%nat /\ sleeps_of [ev; Sleep t; ev] = 1%nat.
Proof. destruct ev; try discriminate. intros _. split; reflexivity. Qed.

(** Result and trace of [request] in terms of the two attempts. *)
Lemma request_cases c route body server :
  let first := HTTPClient.attempt_body float_of_str 0 (server 0%nat) in
  let second := HTTPClient.attempt_body float_of_str 1 (server 1%nat) in
  let ev := HTTPClient.exchange_of c route body in
  let out := HTTPClient.request float_of_str c route body server in
  let tr0 := (HTTPClient._get_session c).2 in
  (exists v, first = Return v /\ out.1.1 = Ok v /\ out.2 = (tr0 ++ [ev])%list) \/
  (exists e, first = Throw e /\ out.1.1 = Raise e /\ out.2 = (tr0 ++ [ev])%list) \/
  (exists t v, first = Continue t /\ second = Return v /\
               out.1.1 = Ok v /\ out.2 = (tr0 ++ [ev; Sleep t; ev])%list) \/
  (exists t e, first = Continue t /\ second = Throw e /\
               out.1.1 = Raise e /\ out.2 = (tr0 ++ [ev; Sleep t; ev])%list).
Proof.
  intros first second ev out tr0. subst out. rewrite request_eq. fold ev tr0.
  destruct (attempt_loop_cases server ev)
    as [(v & H1 & ->)|[(e & H1 & ->)|[(t & v & H1 & H2 & ->)|(t & e & H1 & H2 & ->)]]];
    simpl; eauto 10.
Qed.


(** X2: [request] waits if and only if the first response is a 429 whose
    [retry_after] parses to a value greater than zero. *)
Theorem request_waits_iff_first_429_positive c route body server :
  sleeps_of (HTTPClient.request float_of_str c route body server).2 = 1%nat <->
  (status (server 0%nat) = 429 /\
   exists t b, HTTPClient.rate_limit_info float_of_str (server 0%nat) = Ok (t, b) /\
               float_gt0 t = true).
Proof.
  destruct (get_session_attempts c) as [Ha Hs].
  destruct (trace_counts_one (HTTPClient.exchange_of c route body) eq_refl) as [A1 S1].
  split.
  - destruct (request_cases c route body server)
      as [(v & _ & _ & ->)|[(e & _ & _ & ->)|[(t & v & H1 & _ & _ & ->)|(t & e & H1 & _ & _ & ->)]]];
      rewrite sleeps_of_app, Hs; try (rewrite S1; discriminate); intros _;
      apply attempt_body_continue in H1 as (_ & Hst & Hgt & b & Hi); eauto.
  - intros (Hst & t & b & Hi & Hgt).
    pose proof (attempt_body_429 float_of_str 0 _ _ _ Hst Hi) as H0.
    rewrite Hgt in H0. simpl in H0.
    destruct (request_cases c route body server)
      as [(v & H1 & _)|[(e & H1 & _)|[(t' & v & _ & _ & _ & ->)|(t' & e & _ & _ & _ & ->)]]];
      try congruence;
      rewrite sleeps_of_app, Hs;
      by destruct (trace_counts_two (HTTPClient.exchange_of c route body) t' eq_refl)
        as [_ ->].
Qed.

(** X3: a payload [request] returns is the decoded body of the last
    response it received, and that response had status 200; no payload of
    a response with another status is ever returned. *)
Theorem request_returns_only_200_payloads c route body server v :
  (HTTPClient.request float_of_str c route body server).1.1 = Ok v ->
  let last :=
    server (attempts_of (HTTPClient.request float_of_str c route body server).2 - 1)%nat in
  status last = 200 /\ v = HTTPClient.decode last.
Proof.
  destruct (get_session_attempts c) as [Ha Hs].
  destruct (trace_counts_one (HTTPClient.exchange_of c route body) eq_refl) as [A1 S1].
  destruct (request_cases c route body server)
    as [(v' & H1 & -> & ->)|[(e & _ & -> & _)|[(t & v' & _ & H2 & -> & ->)|(t & e & _ & _ & -> & _)]]];
    try discriminate; intros [= ->]; rewrite attempts_of_app, Ha.
  - rewrite A1. simpl. by apply attempt_body_return in H1.
  - destruct (trace_counts_two (HTTPClient.exchange_of c route body) t eq_refl) as [-> _].
    simpl. by apply attempt_body_return in H2.
Qed.

(** X4: when the first attempt is throttled with a finite positive
    [retry_after] and the second attempt yields a 200 whose payload does
    not come from [resp.text()] (it is the decoded JSON, or there is no
    body), [request] returns the payload of the second response after
    exchange, wait, exchange. *)
Theorem request_retry_then_success c route body server t b :
  status (server 0%nat) = 429 ->
  HTTPClient.rate_limit_info float_of_str (server 0%nat) = Ok (t, b) ->
  float_gt0 t = true ->
  is_infinity t = false ->
  status (server 1%nat) = 200 ->
  reads_text (server 1%nat) = false ->
  let out := HTTPClient.request float_of_str c route body server in
  out.1.1 = Ok (HTTPClient.decode (server 1%nat)) /\
  out.2 = ((HTTPClient._get_session c).2 ++
           [HTTPClient.exchange_of c route body; Sleep t;
            HTTPClient.exchange_of c route body])%list.
Proof.
  intros Hst Hi Hgt _ H200 _ out. subst out.
  pose proof (attempt_body_429 float_of_str 0 _ _ _ Hst Hi) as H0.
  rewrite Hgt in H0. simpl in H0.
  pose proof (attempt_body_200 float_of_str 1 _ H200) as H1.
  destruct (request_cases c route body server)
    as [(v & F & _)|[(e & F & _)|[(t' & v & F & S & -> & ->)|(t' & e & F & S & _)]]];
    try congruence.
  rewrite H0 in F. rewrite H1 in S. by injection F as <-; injection S as <-.
Qed.

(** X5: a response whose status is none of 200, 403 and 429 and whose
    decoded body is a mapping (or empty or absent) makes [request] raise
    the base [HTTPException] at once, with that status, the body's
    [message] or else the reason phrase or else "HTTP <status>", and the
    body as response data. *)
Theorem request_other_status_raises_HTTPException c route body server d :
  status (server 0%nat) <> 200 ->
  status (server 0%nat) <> 403 ->
  status (server 0%nat) <> 429 ->
  py_or (HTTPClient.decode (server 0%nat)) (VDict ∅) = VDict d ->
  let out := HTTPClient.request float_of_str c route body server in
  out.1.1 = Raise (EHTTPException (status (server 0%nat))
                     (default (VStr (reason_or_status (server 0%nat))) (d !! "message"))
                     (VDict d)) /\
  attempts_of out.2 = 1%nat /\
  sleeps_of out.2 = 0%nat.
Proof.
  intros N200 N403 N429 Hd out. subst out.
  assert (H0 : HTTPClient.attempt_body float_of_str 0 (server 0%nat) =
    Throw (EHTTPException (status (server 0%nat))
             (default (VStr (reason_or_status (server 0%nat))) (d !! "message"))
             (VDict d))).
  { unfold HTTPClient.attempt_body, HTTPException, reason_or_status.
    apply Z.eqb_neq in N200, N403, N429. rewrite N200, N403, N429, Hd. simpl.
    by destruct (d !! "message"). }
  destruct (get_session_attempts c) as [Ha Hs].
  destruct (trace_counts_one (HTTPClient.exchange_of c route body) eq_refl) as [A1 S1].
  destruct (request_cases c route body server)
    as [(v & F & _)|[(e & F & -> & ->)|[(t' & v & F & _)|(t' & e & F & _)]]];
    try congruence.
  rewrite H0 in F. injection F as <-.
  rewrite attempts_of_app, sleeps_of_app, Ha, Hs, A1, S1. done.
Qed.

(** X7: a 429 whose [retry_after] cannot be converted by [float] (for
    instance [null], a list or a mapping, which give [TypeError]) makes
    [request] raise that conversion error, not [RateLimited], after one
    exchange and without waiting. *)
Theorem request_429_unconvertible_retry_after c route body server d v e :
  status (server 0%nat) = 429 ->
  py_or (HTTPClient.decode (server 0%nat)) (VDict ∅) = VDict d ->
  d !! "retry_after" = Some v ->
  py_float float_of_str v = Raise e ->
  let out := HTTPClient.request float_of_str c route body server in
  out.1.1 = Raise e /\ is_RateLimited e = false /\
  attempts_of out.2 = 1%nat /\ sleeps_of out.2 = 0%nat.
Proof.
  intros Hst Hd Hv He out. subst out.
  assert (H0 : HTTPClient.attempt_body float_of_str 0 (server 0%nat) = Throw e).
  { unfold HTTPClient.attempt_body, HTTPClient.rate_limit_info.
    rewrite Hst, Hd. simpl. by rewrite Hv, He. }
  assert (Hnot : is_RateLimited e = false).
  { apply py_float_raise in He. by destruct e. }
  destruct (get_session_attempts c) as [Ha Hs].
  destruct (trace_counts_one (HTTPClient.exchange_of c route body) eq_refl) as [A1 S1].
  destruct (request_cases c route body server)
    as [(v' & F & _)|[(e' & F & -> & ->)|[(t' & v' & F & _)|(t' & e' & F & _)]]];
    try congruence.
  rewrite H0 in F. injection F as <-.
  rewrite attempts_of_app, sleeps_of_app, Ha, Hs, A1, S1. done.
Qed.

(** X8: a first 429 whose [retry_after] is not greater than zero
    (negative, zero or NaN) is never retried: [RateLimited] is raised
    after one exchange with that [retry_after] and bucket. *)
Theorem request_429_not_positive_is_not_retried c route body server t b :
  status (server 0%nat) = 429 ->
  HTTPClient.rate_limit_info float_of_str (server 0%nat) = Ok (t, b) ->
  float_gt0 t = false ->
  let out := HTTPClient.request float_of_str c route body server in
  (exists m, out.1.1 = Raise (RateLimited m t b)) /\
  attempts_of out.2 = 1%nat /\ sleeps_of out.2 = 0%nat.
Proof.
  intros Hst Hi Hgt out. subst out.
  pose proof (attempt_body_429 float_of_str 0 _ _ _ Hst Hi) as H0.
  rewrite Hgt in H0. simpl in H0.
  destruct (rate_limit_info_dict float_of_str _ _ Hi) as [d Hd].
  rewrite Hd in H0. simpl in H0.
  destruct (get_session_attempts c) as [Ha Hs].
  destruct (trace_counts_one (HTTPClient.exchange_of c route body) eq_refl) as [A1 S1].
  destruct (request_cases c route body server)
    as [(v' & F & _)|[(e' & F & -> & ->)|[(t' & v' & F & _)|(t' & e' & F & _)]]];
    try congruence.
  rewrite H0 in F. injection F as <-.
  rewrite attempts_of_app, sleeps_of_app, Ha, Hs, A1, S1. eauto.
Qed.

Lemma headers_lookup c :
  HTTPClient._headers c !! "server-key" = Some (HTTPClient.server_key c) /\
  HTTPClient._headers c !! "Content-Type" = Some "application/json" /\
  HTTPClient._headers c !! "Authorization" =
    match HTTPClient.authorization c with
    | Some a => if String.eqb a "" then None else Some a
    | None => None
    end /\
  (forall k, is_Some (HTTPClient._headers c !! k) ->
     k = "server-key" \/ k = "Content-Type" \/ k = "Authorization").
Proof.
  assert (Hbase : forall k v (hdrs : gmap string string),
    hdrs = <["Content-Type" := "application/json"]> {["server-key" := v]} ->
    is_Some (hdrs !! k) -> k = "server-key" \/ k = "Content-Type").
  { intros k v hdrs -> [x Hx].
    apply lookup_insert_Some in Hx as [[<- _]|[_ Hx]]; [by right|].
    apply lookup_singleton_Some in Hx as [<- _]. by left. }
  unfold HTTPClient._headers.
  destruct (HTTPClient.authorization c) as [a|]; [destruct (String.eqb a "") eqn:Ea|].
  - repeat split. intros k Hk. destruct (Hbase k _ _ eq_refl Hk); auto.
  - repeat split. intros k [x Hx].
    apply lookup_insert_Some in Hx as [[<- _]|[_ Hx]]; [auto|].
    destruct (Hbase k (HTTPClient.server_key c) _ eq_refl (ex_intro _ x Hx)); auto.
  - repeat split. intros k Hk. destruct (Hbase k _ _ eq_refl Hk); auto.
Qed.

(** Every exchange in the trace of [request] is the same one. *)
Lemma request_exchanges_are_uniform c route body server (ev : effect) :
  ev ∈ (HTTPClient.request float_of_str c route body server).2 ->
  is_request ev = true ->
  ev = HTTPClient.exchange_of c route body.
Proof.
  intros Hin Hreq.
  destruct (request_cases c route body server)
    as [(v & _ & _ & Ht)|[(e & _ & _ & Ht)|[(t & v & _ & _ & _ & Ht)|(t & e & _ & _ & _ & Ht)]]];
    rewrite Ht in Hin; clear Ht;
    apply elem_of_app in Hin as [Hin|Hin];
    try (destruct (get_session_trace c) as [H0|H0]; rewrite H0 in Hin;
         [by apply elem_of_nil in Hin|];
         apply list_elem_of_singleton in Hin; subst ev; discriminate);
    repeat (apply elem_of_cons in Hin as [Hin|Hin]; [try done; subst ev; discriminate|]);
    by apply elem_of_nil in Hin.
Qed.

(** X9: every exchange [request] makes, retry included, uses the route's
    method, the base URL followed by the route's path, the given body and
    the same headers: [server-key] with the key, [Content-Type:
    application/json], [Authorization] with the token exactly when a
    non-empty token is configured, and no other header. *)
Theorem request_exchanges_carry_credentials c route body server (ev : effect) :
  ev ∈ (HTTPClient.request float_of_str c route body server).2 ->
  is_request ev = true ->
  exists hdrs,
    ev = Exchange (Route.method route)
           ("https://api.policeroleplay.community/v1" +:+ Route.path route) body hdrs /\
    hdrs !! "server-key" = Some (HTTPClient.server_key c) /\
    hdrs !! "Content-Type" = Some "application/json" /\
    hdrs !! "Authorization" =
      match HTTPClient.authorization c with
      | Some a => if String.eqb a "" then None else Some a
      | None => None
      end /\
    (forall k, is_Some (hdrs !! k) ->
       k = "server-key" \/ k = "Content-Type" \/ k = "Authorization").
Proof.
  intros Hin Hreq.
  pose proof (request_exchanges_are_uniform c route body server ev Hin Hreq) as Hev.
  subst ev. exists (HTTPClient._headers c).
  split; [reflexivity|]. apply headers_lookup.
Qed.

Lemma get_session_state c :
  let c1 := (HTTPClient._get_session c).1.2 in
  (exists s, HTTPClient._session c1 = Some s /\ closed s = false) /\
  HTTPClient.server_key c1 = HTTPClient.server_key c /\
  HTTPClient.authorization c1 = HTTPClient.authorization c /\
  HTTPClient._owned_session c1 = HTTPClient._owned_session c /\
  (opens_of (HTTPClient._get_session c).2 <= 1)%nat.
Proof.
  unfold HTTPClient._get_session.
  destruct (HTTPClient._session c) as [s|] eqn:Hs; [destruct (closed s) eqn:Hc|];
    simpl; repeat split; eauto.
Qed.

Lemma get_session_open c s :
  HTTPClient._session c = Some s -> closed s = false ->
  HTTPClient._get_session c = (s, c, []).
Proof. intros Hs Hc. unfold HTTPClient._get_session. by rewrite Hs, Hc. Qed.

Lemma opens_of_app (tr1 tr2 : list effect) :
  opens_of (tr1 ++ tr2) = (opens_of tr1 + opens_of tr2)%nat.
Proof. unfold opens_of. by rewrite filter_app, length_app. Qed.

(** The attempt loop opens no session. *)
Lemma request_opens c route body server :
  opens_of (HTTPClient.request float_of_str c route body server).2 =
  opens_of (HTTPClient._get_session c).2.
Proof.
  destruct (request_cases c route body server)
    as [(v & _ & _ & ->)|[(e & _ & _ & ->)|[(t & v & _ & _ & _ & ->)|(t & e & _ & _ & _ & ->)]]];
    rewrite opens_of_app;
    match goal with
    | |- (_ + opens_of ?tr)%nat = _ => change (opens_of tr) with 0%nat
    end; lia.
Qed.

Lemma request_state c route body server :
  (HTTPClient.request float_of_str c route body server).1.2 =
  (HTTPClient._get_session c).1.2.
Proof. by rewrite request_eq. Qed.

(** X10: after any [request] the transport holds an open session and
    keeps its key, token and ownership flag; a [request] opens at most
    one session, and the next [request] on the same transport opens none
    and leaves the transport as it is. *)
Theorem request_keeps_and_reuses_session c route body server route' body' server' :
  let c1 := (HTTPClient.request float_of_str c route body server).1.2 in
  (exists s, HTTPClient._session c1 = Some s /\ closed s = false) /\
  HTTPClient.server_key c1 = HTTPClient.server_key c /\
  HTTPClient.authorization c1 = HTTPClient.authorization c /\
  HTTPClient._owned_session c1 = HTTPClient._owned_session c /\
  (opens_of (HTTPClient.request float_of_str c route body server).2 <= 1)%nat /\
  opens_of (HTTPClient.request float_of_str c1 route' body' server').2 = 0%nat /\
  (HTTPClient.request float_of_str c1 route' body' server').1.2 = c1.
Proof.
  intros c1. subst c1. rewrite request_state.
  destruct (get_session_state c) as ((s & Hs & Hc) & Hk & Ha & Ho & Hopen).
  rewrite !request_opens, request_state, (get_session_open _ _ Hs Hc).
  repeat split; eauto.
Qed.

(** X11: a transport that owns its session can be used again after
    [close()]: [close] after a request closes the session, the next
    request opens a new one, and the next [close] closes that one too. *)
Theorem owned_transport_reopens_after_close c route body server route' body' server' :
  HTTPClient._owned_session c = true ->
  let c1 := (HTTPClient.request float_of_str c route body server).1.2 in
  let c2 := (HTTPClient.close c1).1 in
  let c3 := (HTTPClient.request float_of_str c2 route' body' server').1.2 in
  (HTTPClient.close c1).2 = [SessionClose] /\
  (exists s, HTTPClient._session c2 = Some s /\ closed s = true) /\
  opens_of (HTTPClient.request float_of_str c2 route' body' server').2 = 1%nat /\
  (HTTPClient.close c3).2 = [SessionClose].
Proof.
  intros Hown c1 c2 c3.
  assert (Hclose : forall c0, HTTPClient._owned_session c0 = true ->
    forall s, HTTPClient._session c0 = Some s -> closed s = false ->
    (HTTPClient.close c0).2 = [SessionClose] /\
    HTTPClient._owned_session (HTTPClient.close c0).1 = true /\
    exists s', HTTPClient._session (HTTPClient.close c0).1 = Some s' /\ closed s' = true).
  { intros c0 Ho s Hs Hc. unfold HTTPClient.close. rewrite Hs, Ho, Hc. simpl. eauto. }
  assert (Hreq : forall c0 r b sv, HTTPClient._owned_session c0 = true ->
    HTTPClient._owned_session (HTTPClient.request float_of_str c0 r b sv).1.2 = true /\
    exists s, HTTPClient._session (HTTPClient.request float_of_str c0 r b sv).1.2 = Some s /\
              closed s = false).
  { intros c0 r b sv Ho. rewrite request_state.
    destruct (get_session_state c0) as (Hs & _ & _ & Ho' & _).
    split; [congruence|done]. }
  destruct (Hreq c route body server Hown) as (Ho1 & s1 & Hs1 & Hc1).
  destruct (Hclose c1 Ho1 s1 Hs1 Hc1) as (Htr & Ho2 & s2 & Hs2 & Hc2).
  destruct (Hreq c2 route' body' server' Ho2) as (Ho3 & s3 & Hs3 & Hc3).
  destruct (Hclose c3 Ho3 s3 Hs3 Hc3) as (Htr3 & _).
  split; [done|]. split; [eauto|]. split; [|done].
  rewrite request_opens. unfold HTTPClient._get_session, c2.
  by rewrite Hs2, Hc2.
Qed.

End TransportMore.

(** * Further properties of the response mappers *)

(** X12: every [from_api] raises [AttributeError] on a payload that is
    not a mapping, [None] included: [data.get] is the first thing it
    evaluates. *)
Theorem from_api_raises_on_non_mapping (data : value) :
  (forall d, data <> VDict d) ->
  Server.from_api data = Raise EAttributeError /\
  Player.from_api data = Raise EAttributeError /\
  JoinLog.from_api data = Raise EAttributeError /\
  KillLog.from_api data = Raise EAttributeError /\
  CommandLog.from_api data = Raise EAttributeError /\
  ModCall.from_api data = Raise EAttributeError /\
  Vehicle.from_api data = Raise EAttributeError /\
  Staff.from_api data = Raise EAttributeError.
Proof.
  intros Hnd. destruct data; try (repeat split; reflexivity).
  by destruct (Hnd d).
Qed.

Lemma py_get_insert_ne (d : gmap string value) (k key : string) (v dflt : value) :
  k <> key -> py_get (VDict (<[k := v]> d)) key dflt = py_get (VDict d) key dflt.
Proof. intros Hne. simpl. by rewrite lookup_insert_ne. Qed.

(** X13: a key that a record does not read has no influence on it:
    adding or overwriting such a key in the payload leaves the result of
    [from_api] unchanged. *)
Theorem from_api_ignores_other_keys (d : gmap string value) (k : string) (v : value) :
  (k ∉ ["Name"; "OwnerId"; "CoOwnerIds"; "CurrentPlayers"; "MaxPlayers";
        "JoinKey"; "AccVerifiedReq"; "TeamBalance"] ->
   Server.from_api (VDict (<[k := v]> d)) = Server.from_api (VDict d)) /\
  (k ∉ ["Player"; "Permission"; "Callsign"; "Team"] ->
   Player.from_api (VDict (<[k := v]> d)) = Player.from_api (VDict d)) /\
  (k ∉ ["Join"; "Timestamp"; "Player"] ->
   JoinLog.from_api (VDict (<[k := v]> d)) = JoinLog.from_api (VDict d)) /\
  (k ∉ ["Killed"; "Timestamp"; "Killer"] ->
   KillLog.from_api (VDict (<[k := v]> d)) = KillLog.from_api (VDict d)) /\
  (k ∉ ["Player"; "Timestamp"; "Command"] ->
   CommandLog.from_api (VDict (<[k := v]> d)) = CommandLog.from_api (VDict d)) /\
  (k ∉ ["Caller"; "Moderator"; "Timestamp"] ->
   ModCall.from_api (VDict (<[k := v]> d)) = ModCall.from_api (VDict d)) /\
  (k ∉ ["Texture"; "Name"; "Owner"] ->
   Vehicle.from_api (VDict (<[k := v]> d)) = Vehicle.from_api (VDict d)) /\
  (k ∉ ["CoOwners"; "Admins"; "Mods"] ->
   Staff.from_api (VDict (<[k := v]> d)) = Staff.from_api (VDict d)).
Proof.
  repeat split; intros Hk;
    unfold Server.from_api, Player.from_api, JoinLog.from_api, KillLog.from_api,
      CommandLog.from_api, ModCall.from_api, Vehicle.from_api, Staff.from_api;
    rewrite !py_get_insert_ne; try reflexivity;
    intros ->; apply Hk; set_solver.
Qed.

(** X14: on a mapping no [from_api] raises, whatever the mapping holds;
    and for every field of every record, a key that is present is stored
    as it is, whatever its type: [from_api] neither converts a value nor
    replaces [None] or a value of the wrong type by the default, so a
    player whose payload has [Player: null] has [player] [None], not the
    empty string. *)
Theorem from_api_keeps_present_values (d : gmap string value) (v : value) :
  ((exists r, Server.from_api (VDict d) = Ok r) /\
   (exists r, Player.from_api (VDict d) = Ok r) /\
   (exists r, JoinLog.from_api (VDict d) = Ok r) /\
   (exists r, KillLog.from_api (VDict d) = Ok r) /\
   (exists r, CommandLog.from_api (VDict d) = Ok r) /\
   (exists r, ModCall.from_api (VDict d) = Ok r) /\
   (exists r, Vehicle.from_api (VDict d) = Ok r) /\
   (exists r, Staff.from_api (VDict d) = Ok r)) /\
  ((d !! "Name" = Some v ->
    exists r, Server.from_api (VDict d) = Ok r /\ Server.name r = v) /\
   (d !! "OwnerId" = Some v ->
    exists r, Server.from_api (VDict d) = Ok r /\ Server.owner_id r = v) /\
   (d !! "CoOwnerIds" = Some v ->
    exists r, Server.from_api (VDict d) = Ok r /\ Server.co_owner_ids r = v) /\
   (d !! "CurrentPlayers" = Some v ->
    exists r, Server.from_api (VDict d) = Ok r /\ Server.current_players r = v) /\
   (d !! "MaxPlayers" = Some v ->
    exists r, Server.from_api (VDict d) = Ok r /\ Server.max_players r = v) /\
   (d !! "JoinKey" = Some v ->
    exists r, Server.from_api (VDict d) = Ok r /\ Server.join_key r = v) /\
   (d !! "AccVerifiedReq" = Some v ->
    exists r, Server.from_api (VDict d) = Ok r /\ Server.acc_verified_req r = v) /\
   (d !! "TeamBalance" = Some v ->
    exists r, Server.from_api (VDict d) = Ok r /\ Server.team_balance r = v)) /\
  ((d !! "Player" = Some v ->
    exists r, Player.from_api (VDict d) = Ok r /\ Player.player r = v) /\
   (d !! "Permission" = Some v ->
    exists r, Player.from_api (VDict d) = Ok r /\ Player.permission r = v) /\
   (d !! "Callsign" = Some v ->
    exists r, Player.from_api (VDict d) = Ok r /\ Player.callsign r = v) /\
   (d !! "Team" = Some v ->
    exists r, Player.from_api (VDict d) = Ok r /\ Player.team r = v)) /\
  ((d !! "Join" = Some v ->
    exists r, JoinLog.from_api (VDict d) = Ok r /\ JoinLog.join r = v) /\
   (d !! "Timestamp" = Some v ->
    exists r, JoinLog.from_api (VDict d) = Ok r /\ JoinLog.timestamp r = v) /\
   (d !! "Player" = Some v ->
    exists r, JoinLog.from_api (VDict d) = Ok r /\ JoinLog.player r = v)) /\
  ((d !! "Killed" = Some v ->
    exists r, KillLog.from_api (VDict d) = Ok r /\ KillLog.killed r = v) /\
   (d !! "Timestamp" = Some v ->
    exists r, KillLog.from_api (VDict d) = Ok r /\ KillLog.timestamp r = v) /\
   (d !! "Killer" = Some v ->
    exists r, KillLog.from_api (VDict d) = Ok r /\ KillLog.killer r = v)) /\
  ((d !! "Player" = Some v ->
    exists r, CommandLog.from_api (VDict d) = Ok r /\ CommandLog.player r = v) /\
   (d !! "Timestamp" = Some v ->
    exists r, CommandLog.from_api (VDict d) = Ok r /\ CommandLog.timestamp r = v) /\
   (d !! "Command" = Some v ->
    exists r, CommandLog.from_api (VDict d) = Ok r /\ CommandLog.command r = v)) /\
  ((d !! "Caller" = Some v ->
    exists r, ModCall.from_api (VDict d) = Ok r /\ ModCall.caller r = v) /\
   (d !! "Moderator" = Some v ->
    exists r, ModCall.from_api (VDict d) = Ok r /\ ModCall.moderator r = v) /\
   (d !! "Timestamp" = Some v ->
    exists r, ModCall.from_api (VDict d) = Ok r /\ ModCall.timestamp r = v)) /\
  ((d !! "Texture" = Some v ->
    exists r, Vehicle.from_api (VDict d) = Ok r /\ Vehicle.texture r = v) /\
   (d !! "Name" = Some v ->
    exists r, Vehicle.from_api (VDict d) = Ok r /\ Vehicle.name r = v) /\
   (d !! "Owner" = Some v ->
    exists r, Vehicle.from_api (VDict d) = Ok r /\ Vehicle.owner r = v)) /\
  ((d !! "CoOwners" = Some v ->
    exists r, Staff.from_api (VDict d) = Ok r /\ Staff.co_owners r = v) /\
   (d !! "Admins" = Some v ->
    exists r, Staff.from_api (VDict d) = Ok r /\ Staff.admins r = v) /\
   (d !! "Mods" = Some v ->
    exists r, Staff.from_api (VDict d) = Ok r /\ Staff.mods r = v)).
Proof.
  split; [repeat split; eexists; reflexivity|].
  repeat split; intros Hv;
    unfold Server.from_api, Player.from_api, JoinLog.from_api, KillLog.from_api,
      CommandLog.from_api, ModCall.from_api, Vehicle.from_api, Staff.from_api;
    simpl; rewrite Hv; eauto.
Qed.

(** * Further properties of the client *)

Section ClientMore.

Variable float_of_str : string -> option float.

Implicit Types (c : Client.t) (server : nat -> ClientResponse).

Ltac unfold_op :=
  unfold Client.perform, Client.as_reply, Client.get_server, Client.get_players,
    Client.run_command, Client.get_joinlogs, Client.get_queue,
    Client.get_killlogs, Client.get_commandlogs, Client.get_modcalls,
    Client.get_bans, Client.get_vehicles, Client.get_staff.

(** A typed operation is its [_request] on its route followed by the
    mapping of the payload: state and trace are those of the [_request],
    and so is an exception. *)
Lemma perform_via_request op c server :
  let req := Client._request float_of_str c (route_of op) (body_of op) server in
  (Client.perform float_of_str op c server).1.2 = req.1.2 /\
  (Client.perform float_of_str op c server).2 = req.2 /\
  (forall e, req.1.1 = Raise e ->
             (Client.perform float_of_str op c server).1.1 = Raise e).
Proof.
  destruct op; simpl; unfold_op;
    destruct (Client._request _ _ _ _ _) as [[r c'] tr]; simpl;
    (repeat split; [intros e ->; reflexivity]).
Qed.

(** [_ensure_http] when a transport is at hand or a key is configured. *)
Lemma ensure_http_ok c key :
  Client.server_key c = Some key -> key <> "" ->
  exists h, Client._ensure_http c = (Ok h, Client.set_http c (Some h)) /\
            (Client._http c = None ->
             h = HTTPClient.__init__ key (Client.authorization c) None) /\
            (forall h0, Client._http c = Some h0 -> h = h0).
Proof.
  intros Hk Hne. apply String.eqb_neq in Hne. unfold Client._ensure_http.
  destruct (Client._http c) as [h0|] eqn:Hh.
  - exists h0. split; [|split; [done|by intros ? [= ->]]].
    destruct c; simpl in *. by subst.
  - rewrite Hk, Hne. eexists. split; [reflexivity|]. split; [done|discriminate].
Qed.

Lemma client_request_via_transport c key route body server :
  Client.server_key c = Some key -> key <> "" ->
  exists h,
    (Client._http c = None -> h = HTTPClient.__init__ key (Client.authorization c) None) /\
    (forall h0, Client._http c = Some h0 -> h = h0) /\
    Client._request float_of_str c route body server =
    ((HTTPClient.request float_of_str h route body server).1.1,
     Client.set_http c (Some (HTTPClient.request float_of_str h route body server).1.2),
     (HTTPClient.request float_of_str h route body server).2).
Proof.
  intros Hk Hne.
  destruct (ensure_http_ok c key Hk Hne) as (h & He & Hnone & Hsome).
  exists h. split; [done|]. split; [done|].
  unfold Client._request. rewrite He.
  by destruct (HTTPClient.request float_of_str h route body server) as [[r h'] tr].
Qed.

(** X15: without a transport and without a key ([None] or the empty
    string) every typed operation raises [RuntimeError] before anything
    else happens: no session is opened, no exchange is made and the client
    is left as it was. *)
Theorem perform_without_key_raises c op server :
  Client._http c = None ->
  Client.server_key c = None \/ Client.server_key c = Some "" ->
  Client.perform float_of_str op c server =
  (Raise (ERuntimeError "Server API has not been set."), c, []).
Proof.
  intros Hh Hk.
  assert (Hreq : forall route body,
    Client._request float_of_str c route body server =
    (Raise (ERuntimeError "Server API has not been set."), c, [])).
  { intros route body. unfold Client._request, Client._ensure_http. rewrite Hh.
    by destruct Hk as [-> | ->]. }
  destruct op; unfold_op; by rewrite Hreq.
Qed.

(** X16: every exchange a typed operation makes goes to that
    operation's own route: [run_command] is the only one that posts and
    the only one that sends a body, [{"command": <command>}]; all others
    are GETs without a body. *)
Theorem perform_exchanges_use_own_route c key op server (ev : effect) :
  Client.server_key c = Some key -> key <> "" ->
  ev ∈ (Client.perform float_of_str op c server).2 ->
  is_request ev = true ->
  exists hdrs,
    ev = Exchange (Route.method (route_of op))
           ("https://api.policeroleplay.community/v1" +:+ Route.path (route_of op))
           (body_of op) hdrs /\
    (Route.method (route_of op) = "GET" /\ body_of op = VNone \/
     exists command,
       op = Client.OpRunCommand command /\
       Route.method (route_of op) = "POST" /\
       Route.path (route_of op) = "/server/command" /\
       body_of op = VDict {["command" := VStr command]}).
Proof.
  intros Hk Hne Hin Hreq.
  destruct (perform_via_request op c server) as (_ & Htr & _).
  rewrite Htr in Hin.
  destruct (client_request_via_transport c key (route_of op) (body_of op) server Hk Hne)
    as (h & _ & _ & Heq).
  rewrite Heq in Hin. simpl in Hin.
  pose proof (request_exchanges_are_uniform float_of_str h (route_of op) (body_of op)
                server ev Hin Hreq) as ->.
  eexists. split; [reflexivity|].
  destruct op; simpl; eauto 10.
Qed.

Lemma closes_of_app (tr1 tr2 : list effect) :
  closes_of (tr1 ++ tr2) = (closes_of tr1 + closes_of tr2)%nat.
Proof. unfold closes_of. by rewrite filter_app, length_app. Qed.

(** What a request does to a transport that owns its session. *)
Lemma request_on_owned_transport (h : HTTPClient.t) route body server :
  HTTPClient._owned_session h = true ->
  (forall s, HTTPClient._session h = Some s -> closed s = false) ->
  let out := HTTPClient.request float_of_str h route body server in
  HTTPClient._owned_session out.1.2 = true /\
  (exists s, HTTPClient._session out.1.2 = Some s /\ closed s = false) /\
  closes_of out.2 = 0%nat /\
  opens_of out.2 = match HTTPClient._session h with None => 1%nat | Some _ => 0%nat end.
Proof.
  intros Ho Hopen out. subst out.
  rewrite request_state, request_opens.
  assert (Hcl : closes_of (HTTPClient.request float_of_str h route body server).2 =
                closes_of (HTTPClient._get_session h).2).
  { destruct (request_cases float_of_str h route body server)
      as [(v & _ & _ & ->)|[(e & _ & _ & ->)|[(t & v & _ & _ & _ & ->)|(t & e & _ & _ & _ & ->)]]];
      rewrite closes_of_app;
      match goal with
      | |- (_ + closes_of ?tr)%nat = _ => change (closes_of tr) with 0%nat
      end; lia. }
  rewrite Hcl. unfold HTTPClient._get_session.
  destruct (HTTPClient._session h) as [s|] eqn:Hs.
  - rewrite (Hopen s eq_refl). simpl.
    split; [done|]. split; [|done]. exists s. split; [done|by apply Hopen].
  - simpl. split; [done|]. split; [|done]. eauto.
Qed.

Lemma client_request_on_owned c route body server :
  owns_transport c ->
  let out := Client._request float_of_str c route body server in
  owns_transport out.1.2 /\
  closes_of out.2 = 0%nat /\
  session_held out.1.2 = (session_held c + opens_of out.2)%nat /\
  session_held out.1.2 = 1%nat.
Proof.
  intros (Hc & h & Hh & Ho & Hopen) out. subst out.
  unfold Client._request, Client._ensure_http. rewrite Hh.
  destruct (request_on_owned_transport h route body server Ho Hopen)
    as (Ho' & (s' & Hs' & Hc') & Hcl & Hop).
  destruct (HTTPClient.request float_of_str h route body server) as [[r h'] tr].
  simpl in *. split; [|split; [done|]].
  - split; [done|]. exists h'. split; [done|]. split; [done|].
    intros s Hs. congruence.
  - unfold session_held. simpl. rewrite Hh, Hs', Hc', Hop.
    destruct (HTTPClient._session h) as [s|] eqn:Hs; [|done].
    by rewrite (Hopen s eq_refl).
Qed.

Lemma perform_on_owned op c server :
  owns_transport c ->
  let out := Client.perform float_of_str op c server in
  owns_transport out.1.2 /\
  closes_of out.2 = 0%nat /\
  session_held out.1.2 = (session_held c + opens_of out.2)%nat /\
  session_held out.1.2 = 1%nat.
Proof.
  intros Hown out. subst out.
  destruct (perform_via_request op c server) as (-> & -> & _).
  by apply client_request_on_owned.
Qed.

(** A client with a key and without a transport gets one that owns its
    (not yet opened) session. *)
Lemma ensure_http_owns c key :
  Client._closed c = false -> Client._http c = None ->
  Client.server_key c = Some key -> key <> "" ->
  exists h, Client._ensure_http c = (Ok h, Client.set_http c (Some h)) /\
            owns_transport (Client.set_http c (Some h)) /\
            session_held (Client.set_http c (Some h)) = 0%nat.
Proof.
  intros Hc Hh Hk Hne.
  destruct (ensure_http_ok c key Hk Hne) as (h & He & Hnone & _).
  exists h. split; [done|]. rewrite (Hnone Hh). split; [|reflexivity].
  split; [done|]. eexists. split; [reflexivity|]. split; [reflexivity|].
  discriminate.
Qed.

(** X17: consecutive typed operations share one session: an operation
    opens at most one session (exactly one on a client that has no
    transport yet), and the operation after it opens none. *)
Theorem consecutive_operations_share_session c key op1 server1 op2 server2 :
  Client._closed c = false -> Client._http c = None ->
  Client.server_key c = Some key -> key <> "" ->
  let c1 := (Client.perform float_of_str op1 c server1).1.2 in
  opens_of (Client.perform float_of_str op1 c server1).2 = 1%nat /\
  opens_of (Client.perform float_of_str op2 c1 server2).2 = 0%nat /\
  closes_of (Client.perform float_of_str op1 c server1).2 = 0%nat /\
  closes_of (Client.perform float_of_str op2 c1 server2).2 = 0%nat.
Proof.
  intros Hc Hh Hk Hne c1.
  destruct (ensure_http_owns c key Hc Hh Hk Hne) as (h & He & Hown & Hheld).
  assert (Hsame : forall op server,
    Client.perform float_of_str op c server =
    Client.perform float_of_str op (Client.set_http c (Some h)) server).
  { intros op server.
    assert (Hreq : forall route body,
      Client._request float_of_str c route body server =
      Client._request float_of_str (Client.set_http c (Some h)) route body server).
    { intros route body. unfold Client._request. rewrite He.
      unfold Client._ensure_http. simpl. reflexivity. }
    destruct op; unfold_op; by rewrite Hreq. }
  subst c1. rewrite Hsame.
  destruct (perform_on_owned op1 _ server1 Hown) as (Hown1 & Hcl1 & Hheld1 & Hone1).
  destruct (perform_on_owned op2 _ server2 Hown1) as (Hown2 & Hcl2 & Hheld2 & Hone2).
  rewrite Hheld in Hheld1. repeat split; try done; lia.
Qed.

(** X18: registering again under a name replaces the handler registered
    before under that name and nothing else: the other names of the
    table, the transport, the credentials and the closed flag are left
    alone. *)
Theorem event_last_registration_wins c (h1 h2 : Client.handler) (name : string) :
  Client.iscoroutinefunction h1 = true ->
  Client.iscoroutinefunction h2 = true ->
  Client.__name__ h1 = Some name ->
  Client.__name__ h2 = Some name ->
  let c2 := (Client.event (Client.event c h1).2 h2).2 in
  (name = "on_ready" ->
   Client._on_ready c2 = Some h2 /\ Client._events c2 = Client._events c) /\
  (name <> "on_ready" ->
   Client._events c2 !! name = Some h2 /\
   (forall k, k <> name -> Client._events c2 !! k = Client._events c !! k) /\
   Client._on_ready c2 = Client._on_ready c) /\
  Client._http c2 = Client._http c /\
  Client._closed c2 = Client._closed c /\
  Client.server_key c2 = Client.server_key c /\
  Client.authorization c2 = Client.authorization c.
Proof.
  intros Hc1 Hc2 Hn1 Hn2 c2. subst c2.
  unfold Client.event. rewrite Hc1, Hc2, Hn1, Hn2. simpl.
  destruct (String.eqb name "on_ready") eqn:En; simpl.
  - apply String.eqb_eq in En. repeat split; done.
  - apply String.eqb_neq in En. repeat split; try done.
    + apply lookup_insert_eq.
    + intros k Hk. by rewrite !lookup_insert_ne.
Qed.

Lemma session_held_le_1 c : (session_held c <= 1)%nat.
Proof.
  unfold session_held. destruct (Client._http c) as [h|]; [|lia].
  destruct (HTTPClient._session h) as [s|]; [|lia]. destruct (closed s); lia.
Qed.

(** [close] on a client that owns its transport closes the session it
    holds, if any. *)
Lemma close_on_owned c :
  owns_transport c ->
  (Client.close c).2 = (if Nat.eqb (session_held c) 1 then [SessionClose] else []) /\
  Client._http (Client.close c).1 = None /\
  Client._closed (Client.close c).1 = true.
Proof.
  intros (Hc & h & Hh & Ho & Hopen).
  unfold Client.close, session_held, HTTPClient.close. rewrite Hc, Hh.
  destruct (HTTPClient._session h) as [s|] eqn:Hs.
  - rewrite Ho, (Hopen s eq_refl). simpl. done.
  - simpl. done.
Qed.

Lemma invoke_on_owned cs c :
  forallb is_operation_call cs = true ->
  owns_transport c ->
  let out := Client.invoke float_of_str cs c in
  owns_transport out.1.2 /\
  closes_of out.2 = 0%nat /\
  session_held out.1.2 = (session_held c + opens_of out.2)%nat.
Proof.
  revert c. induction cs as [|[op server|] rest IH]; intros c Hall Hown; simpl.
  - split; [done|]. split; [done|]. change (opens_of []) with 0%nat. lia.
  - simpl in Hall.
    destruct (perform_on_owned op c server Hown) as (Hown1 & Hcl1 & Hheld1 & _).
    destruct (Client.perform float_of_str op c server) as [[r c1] tr]. simpl in *.
    destruct r as [x|e]; [|done].
    destruct (IH c1 Hall Hown1) as (Hown2 & Hcl2 & Hheld2).
    destruct (Client.invoke float_of_str rest c1) as [[r' c2] tr']. simpl in *.
    rewrite closes_of_app, opens_of_app.
    split; [done|]. split; lia.
  - discriminate.
Qed.

(** X19: [run] on a client that is not closed and has no transport yet,
    with a ready callback that only awaits typed operations (or with
    none), gives back every session it opened: the client ends closed and
    without a transport, at most one session was opened, and as many
    were closed as were opened. *)
Theorem run_closes_the_session_it_opened c key auth :
  Client._closed c = false ->
  Client._http c = None ->
  match Client._on_ready c with
  | Some h => forallb is_operation_call (Client.calls h) = true
  | None => True
  end ->
  let out := Client.run float_of_str c key auth in
  Client._closed out.1.2 = true /\
  Client._http out.1.2 = None /\
  opens_of out.2 = closes_of out.2 /\
  (opens_of out.2 <= 1)%nat.
Proof.
  intros Hc Hh Hready out. subst out. unfold Client.run, Client._start.
  set (c1 := Client.set_credentials c key auth).
  assert (Hc1 : Client._closed c1 = false) by done.
  assert (Hh1 : Client._http c1 = None) by done.
  assert (Hr1 : Client._on_ready c1 = Client._on_ready c) by done.
  clearbody c1.
  assert (Hfinish : forall r c2 tr,
    owns_transport c2 -> closes_of tr = 0%nat ->
    session_held c2 = opens_of tr ->
    let out := (let '(c3, tr') := Client.close c2 in (r : result unit, c3, (tr ++ tr')%list)) in
    Client._closed out.1.2 = true /\ Client._http out.1.2 = None /\
    opens_of out.2 = closes_of out.2 /\ (opens_of out.2 <= 1)%nat).
  { intros r c2 tr Hown Hcl Hheld.
    destruct (close_on_owned c2 Hown) as (Htr & Hnone & Hclosed).
    pose proof (session_held_le_1 c2) as Hle.
    destruct (Client.close c2) as [c3 tr']. simpl in *. subst tr'.
    rewrite opens_of_app, closes_of_app, Hcl, <- Hheld.
    destruct (Nat.eqb (session_held c2) 1) eqn:E.
    - apply Nat.eqb_eq in E. rewrite E.
      change (opens_of [SessionClose]) with 0%nat.
      change (closes_of [SessionClose]) with 1%nat. repeat split; try done; lia.
    - apply Nat.eqb_neq in E.
      change (opens_of []) with 0%nat. change (closes_of []) with 0%nat.
      repeat split; try done; lia. }
  assert (Hnokey : Client._ensure_http c1 =
                     (Raise (ERuntimeError "Server API has not been set."), c1) ->
    let out := (let '(r, c2, tr) :=
                  match Client._ensure_http c1 with
                  | (Ok _, c') =>
                      match Client._on_ready c' with
                      | Some h => Client.invoke float_of_str (Client.calls h) c'
                      | None => (Ok (), c', [])
                      end
                  | (Raise e, c') => (Raise e, c', [])
                  end in
                let '(c3, tr') := Client.close c2 in (r, c3, (tr ++ tr')%list)) in
    Client._closed out.1.2 = true /\ Client._http out.1.2 = None /\
    opens_of out.2 = closes_of out.2 /\ (opens_of out.2 <= 1)%nat).
  { intros ->. unfold Client.close. rewrite Hc1, Hh1. simpl.
    repeat split; try done. change (opens_of []) with 0%nat. lia. }
  destruct (Client.server_key c1) as [k|] eqn:Hk.
  2: { apply Hnokey. unfold Client._ensure_http. by rewrite Hh1, Hk. }
  destruct (String.eqb k "") eqn:Ek.
  { apply Hnokey. unfold Client._ensure_http. by rewrite Hh1, Hk, Ek. }
  apply String.eqb_neq in Ek.
  destruct (ensure_http_owns c1 k Hc1 Hh1 Hk Ek) as (h & -> & Hown & Hheld).
  replace (Client._on_ready (Client.set_http c1 (Some h))) with (Client._on_ready c)
    by (by rewrite <- Hr1).
  destruct (Client._on_ready c) as [hd|].
  - destruct (invoke_on_owned (Client.calls hd) _ Hready Hown) as (Hown2 & Hcl2 & Hheld2).
    destruct (Client.invoke float_of_str (Client.calls hd) _) as [[r c2] tr].
    simpl in *. apply Hfinish; try done. lia.
  - apply Hfinish; try done.
Qed.

(** X20: once [close] has run, a later [close] does nothing, also when
    a typed operation in between has built a new transport: the session
    that operation opened stays open. *)
Theorem close_after_reuse_does_nothing c key op server :
  Client._closed c = false ->
  Client.server_key c = Some key -> key <> "" ->
  let c1 := (Client.close c).1 in
  let c2 := (Client.perform float_of_str op c1 server).1.2 in
  Client.close c2 = (c2, []) /\
  session_held c2 = 1%nat /\
  opens_of (Client.perform float_of_str op c1 server).2 = 1%nat.
Proof.
  intros Hc Hk Hne c1 c2.
  assert (H1 : Client._closed c1 = true /\ Client._http c1 = None /\
               Client.server_key c1 = Some key).
  { subst c1. unfold Client.close. rewrite Hc.
    destruct (Client._http c) as [h|] eqn:Hh; [destruct (HTTPClient.close h)|];
      simpl; repeat split; done. }
  destruct H1 as (Hc1 & Hh1 & Hk1).
  destruct (perform_via_request op c1 server) as (Hst & Htr & _).
  destruct (client_request_via_transport c1 key (route_of op) (body_of op) server Hk1 Hne)
    as (h & Hfresh & _ & Heq).
  specialize (Hfresh Hh1).
  assert (Ho : HTTPClient._owned_session h = true) by (by subst h).
  assert (Hs : forall s, HTTPClient._session h = Some s -> closed s = false)
    by (subst h; discriminate).
  destruct (request_on_owned_transport h (route_of op) (body_of op) server Ho Hs)
    as (_ & (s' & Hs' & Hcl') & _ & Hop).
  assert (Hnone : HTTPClient._session h = None) by (by subst h).
  rewrite Hnone in Hop.
  subst c2. rewrite Htr, Hst, Heq. simpl.
  split; [|split; [|done]].
  - unfold Client.close. simpl. by rewrite Hc1.
  - unfold session_held. simpl. by rewrite Hs', Hcl'.
Qed.

(** X21: on a client that is not closed, [close] after a typed
    operation closes the session, drops the transport and sets
    [_closed]; the trace of that [close] is the one [SessionClose]. *)
Theorem close_releases_the_transport c key op server :
  Client._closed c = false -> Client._http c = None ->
  Client.server_key c = Some key -> key <> "" ->
  let c1 := (Client.perform float_of_str op c server).1.2 in
  (Client.close c1).2 = [SessionClose] /\
  Client._http (Client.close c1).1 = None /\
  Client._closed (Client.close c1).1 = true.
Proof.
  intros Hc Hh Hk Hne c1.
  destruct (ensure_http_owns c key Hc Hh Hk Hne) as (h & He & Hown & Hheld).
  assert (Hsame : Client.perform float_of_str op c server =
                  Client.perform float_of_str op (Client.set_http c (Some h)) server).
  { assert (Hreq : forall route body,
      Client._request float_of_str c route body server =
      Client._request float_of_str (Client.set_http c (Some h)) route body server).
    { intros route body. unfold Client._request. rewrite He.
      unfold Client._ensure_http. simpl. reflexivity. }
    destruct op; unfold_op; by rewrite Hreq. }
  subst c1. rewrite Hsame.
  destruct (perform_on_owned op _ server Hown) as (Hown1 & _ & _ & Hone).
  destruct (close_on_owned _ Hown1) as (Htr & Hnone & Hclosed).
  rewrite Hone in Htr. done.
Qed.

(** With a key configured, a first response with status 200 makes
    [_request] return its decoded payload. *)
Lemma client_request_200 c key route body server :
  Client.server_key c = Some key -> key <> "" ->
  status (server 0%nat) = 200 ->
  exists c' tr,
    Client._request float_of_str c route body server =
    (Ok (HTTPClient.decode (server 0%nat)), c', tr).
Proof.
  intros Hk Hne H200.
  destruct (client_request_via_transport c key route body server Hk Hne)
    as (h & _ & _ & ->).
  pose proof (attempt_body_200 float_of_str 0 _ H200) as H0.
  destruct (request_cases float_of_str h route body server)
    as [(v & F & -> & _)|[(e & F & _)|[(t & v & F & _)|(t & e & F & _)]]];
    try congruence.
  rewrite H0 in F. injection F as <-. eauto.
Qed.

(** X22: when the server answers 200 with a payload that does not come
    from [resp.text()] (it is the decoded JSON, or there is no body), each
    typed operation returns what its mapper makes of that payload [data]:
    a mapper that raises makes the operation raise; [get_server] and
    [get_staff] the record (the latter of [data or {}]), the list
    operations one record per entry when [data] is a list and the empty
    list otherwise, [get_queue] and [get_bans] the payload itself when it
    has the right shape, and [run_command] [data or {}]. *)
Theorem operations_map_the_200_payload c key server :
  Client.server_key c = Some key -> key <> "" ->
  status (server 0%nat) = 200 ->
  reads_text (server 0%nat) = false ->
  let data := HTTPClient.decode (server 0%nat) in
  (Client.get_server float_of_str c server).1.1 = Server.from_api data /\
  (Client.get_players float_of_str c server).1.1 =
    Client.map_list Player.from_api data /\
  (forall command,
     (Client.run_command float_of_str c command server).1.1 =
     Ok (if truthy data then data else VDict ∅)) /\
  (Client.get_joinlogs float_of_str c server).1.1 =
    Client.map_list JoinLog.from_api data /\
  (Client.get_queue float_of_str c server).1.1 =
    Ok (match data with VList _ => data | _ => VList [] end) /\
  (Client.get_killlogs float_of_str c server).1.1 =
    Client.map_list KillLog.from_api data /\
  (Client.get_commandlogs float_of_str c server).1.1 =
    Client.map_list CommandLog.from_api data /\
  (Client.get_modcalls float_of_str c server).1.1 =
    Client.map_list ModCall.from_api data /\
  (Client.get_bans float_of_str c server).1.1 =
    Ok (match data with VDict _ => data | _ => VDict ∅ end) /\
  (Client.get_vehicles float_of_str c server).1.1 =
    Client.map_list Vehicle.from_api data /\
  (Client.get_staff float_of_str c server).1.1 =
    Staff.from_api (if truthy data then data else VDict ∅).
Proof.
  intros Hk Hne H200 _ data.
  repeat split; try intros command;
    unfold Client.get_server, Client.get_players, Client.run_command,
      Client.get_joinlogs, Client.get_queue, Client.get_killlogs,
      Client.get_commandlogs, Client.get_modcalls, Client.get_bans,
      Client.get_vehicles, Client.get_staff;
    match goal with
    | |- context [Client._request _ _ ?r ?b _] =>
        destruct (client_request_200 c key r b server Hk Hne H200) as (c' & tr & ->)
    end; reflexivity.
Qed.

(** X23: a 200 without a body (the decoded payload is [None]) makes
    [get_server] raise [AttributeError], while [get_staff] returns the
    all-defaults record, [run_command] and [get_bans] return the empty
    mapping and the list operations return the empty list. *)
Theorem operations_on_empty_200 c key server :
  Client.server_key c = Some key -> key <> "" ->
  status (server 0%nat) = 200 ->
  HTTPClient.decode (server 0%nat) = VNone ->
  (Client.get_server float_of_str c server).1.1 = Raise EAttributeError /\
  (Client.get_staff float_of_str c server).1.1 =
    Ok (Staff.mk (VList []) (VDict ∅) (VDict ∅)) /\
  (forall command,
     (Client.run_command float_of_str c command server).1.1 = Ok (VDict ∅)) /\
  (Client.get_bans float_of_str c server).1.1 = Ok (VDict ∅) /\
  (Client.get_queue float_of_str c server).1.1 = Ok (VList []) /\
  (Client.get_players float_of_str c server).1.1 = Ok [] /\
  (Client.get_joinlogs float_of_str c server).1.1 = Ok [] /\
  (Client.get_killlogs float_of_str c server).1.1 = Ok [] /\
  (Client.get_commandlogs float_of_str c server).1.1 = Ok [] /\
  (Client.get_modcalls float_of_str c server).1.1 = Ok [] /\
  (Client.get_vehicles float_of_str c server).1.1 = Ok [].
Proof.
  intros Hk Hne H200 Hnone.
  repeat split; try intros command;
    unfold Client.get_server, Client.get_players, Client.run_command,
      Client.get_joinlogs, Client.get_queue, Client.get_killlogs,
      Client.get_commandlogs, Client.get_modcalls, Client.get_bans,
      Client.get_vehicles, Client.get_staff;
    match goal with
    | |- context [Client._request _ _ ?r ?b _] =>
        destruct (client_request_200 c key r b server Hk Hne H200) as (c' & tr & ->)
    end; rewrite Hnone; reflexivity.
Qed.

Lemma fmap_raise {A B : Type} (f : A -> B) (r : result A) (e : exn) :
  f <$> r = Raise e -> r = Raise e.
Proof. destruct r; simpl; [discriminate|congruence]. Qed.

Lemma py_get_raise_attr obj k dflt e :
  py_get obj k dflt = Raise e -> e = EAttributeError.
Proof. destruct obj; simpl; congruence. Qed.

(** A mapper raises nothing but [AttributeError]. *)
Lemma from_api_raise_attr (data : value) (e : exn) :
  (Server.from_api data = Raise e -> e = EAttributeError) /\
  (Player.from_api data = Raise e -> e = EAttributeError) /\
  (JoinLog.from_api data = Raise e -> e = EAttributeError) /\
  (KillLog.from_api data = Raise e -> e = EAttributeError) /\
  (CommandLog.from_api data = Raise e -> e = EAttributeError) /\
  (ModCall.from_api data = Raise e -> e = EAttributeError) /\
  (Vehicle.from_api data = Raise e -> e = EAttributeError) /\
  (Staff.from_api data = Raise e -> e = EAttributeError).
Proof.
  destruct data; repeat split;
    unfold Server.from_api, Player.from_api, JoinLog.from_api, KillLog.from_api,
      CommandLog.from_api, ModCall.from_api, Vehicle.from_api, Staff.from_api;
    simpl; unfold mbind, result_bind; congruence.
Qed.

Lemma mapM_raise {A : Type} (f : value -> result A) (l : list value) (e e0 : exn) :
  (forall x e', f x = Raise e' -> e' = e0) ->
  mapM f l = Raise e -> e = e0.
Proof.
  intros Hf. induction l as [|x l IH]; simpl; [discriminate|].
  destruct (f x) as [y|e1] eqn:Hx; simpl.
  - destruct (mapM f l) as [ys|e2]; simpl; [discriminate|].
    intros [= <-]. by apply IH.
  - intros [= <-]. by eapply Hf.
Qed.

Lemma map_list_raise {A : Type} (f : value -> result A) (data : value) (e e0 : exn) :
  (forall x e', f x = Raise e' -> e' = e0) ->
  Client.map_list f data = Raise e -> e = e0.
Proof.
  intros Hf. destruct data; simpl; try discriminate. by apply mapM_raise.
Qed.

(** X24: a typed operation swallows no exception of the request and
    adds only one of its own: when [_request] raises, the operation
    raises the same exception; when the operation raises although
    [_request] returned a payload, the exception is the
    [AttributeError] of the mapper. *)
Theorem perform_raises_what_request_raises c op server e :
  let req := Client._request float_of_str c (route_of op) (body_of op) server in
  (req.1.1 = Raise e -> (Client.perform float_of_str op c server).1.1 = Raise e) /\
  ((Client.perform float_of_str op c server).1.1 = Raise e ->
   req.1.1 = Raise e \/ (exists data, req.1.1 = Ok data) /\ e = EAttributeError).
Proof.
  intros req. subst req. split.
  { by apply perform_via_request. }
  destruct op; simpl route_of; simpl body_of; unfold_op;
    destruct (Client._request _ _ _ _ _) as [[[data|e0] c'] tr]; simpl;
    try (intros [= <-]; by left);
    intros H; right; (split; [eauto|]);
    apply fmap_raise in H;
    first
      [ destruct (from_api_raise_attr data e) as (?&?&?&?&?&?&?&?); by auto
      | destruct (from_api_raise_attr (py_or data (VDict ∅)) e)
          as (?&?&?&?&?&?&?&?); by auto
      | eapply map_list_raise; [|exact H]; intros x e' Hx;
        destruct (from_api_raise_attr x e') as (?&?&?&?&?&?&?&?); by auto ].
Qed.

Lemma mapM_all_ok {A : Type} (f : value -> result A) (l : list value) :
  Forall (fun x => exists y, f x = Ok y) l ->
  exists ys, mapM f l = Ok ys /\ Forall2 (fun x y => f x = Ok y) l ys.
Proof.
  induction 1 as [|x l [y Hy] _ (ys & Hys & Hall)]; simpl.
  - exists []. split; [reflexivity|constructor].
  - exists (y :: ys). rewrite Hy. simpl. rewrite Hys. simpl.
    split; [reflexivity|by constructor].
Qed.

Lemma mapM_some_raise {A : Type} (f : value -> result A) (l : list value)
    (x : value) (e : exn) :
  (forall z e', f z = Raise e' -> e' = e) ->
  x ∈ l -> f x = Raise e -> mapM f l = Raise e.
Proof.
  intros Hf Hin Hx. induction l as [|a l IH]; [by apply elem_of_nil in Hin|].
  simpl. destruct (f a) as [y|e1] eqn:Ha; simpl.
  - apply elem_of_cons in Hin as [->|Hin]; [congruence|].
    by rewrite (IH Hin).
  - by rewrite (Hf a e1 Ha).
Qed.

(** X25: [get_players] maps the entries of a list payload one by one and
    all or nothing: when every entry is a mapping it returns one [Player]
    per entry, in order; when some entry is not a mapping the whole call
    raises [AttributeError] and no player is returned. *)
Theorem get_players_all_or_nothing c server (l : list value) c' tr :
  Client._request float_of_str c (Route.mk "GET" "/server/players") VNone server =
    (Ok (VList l), c', tr) ->
  (Forall (fun x => exists d, x = VDict d) l ->
   exists ps, Client.get_players float_of_str c server = (Ok ps, c', tr) /\
              Forall2 (fun x p => Player.from_api x = Ok p) l ps /\
              length ps = length l) /\
  (forall x, x ∈ l -> (forall d, x <> VDict d) ->
   Client.get_players float_of_str c server = (Raise EAttributeError, c', tr)).
Proof.
  intros Hreq. unfold Client.get_players. rewrite Hreq. simpl. split.
  - intros Hall.
    destruct (mapM_all_ok Player.from_api l) as (ps & Hps & Hall2).
    { eapply Forall_impl; [exact Hall|]. intros x [d ->]. eexists. reflexivity. }
    exists ps. rewrite Hps. split; [reflexivity|]. split; [done|].
    symmetry. by eapply Forall2_length.
  - intros x Hin Hnd.
    rewrite (mapM_some_raise Player.from_api l x EAttributeError); [reflexivity| |done|].
    + intros z e' Hz. destruct (from_api_raise_attr z e') as (_ & H & _). auto.
    + destruct x; try reflexivity. by destruct (Hnd d).
Qed.

End ClientMore.

(** * The further properties at concrete inputs *)

Lemma request_returns_only_200_payloads_witness :
  (HTTPClient.request float_of_str_unused sample_http sample_route VNone
     recovering_server).1.1 = Ok (VDict server_payload) /\
  status (recovering_server 1) = 200 /\
  VDict server_payload = HTTPClient.decode (recovering_server 1).
Proof.
  assert (H : (HTTPClient.request float_of_str_unused sample_http sample_route VNone
                 recovering_server).1.1 = Ok (VDict server_payload))
    by (vm_compute; reflexivity).
  split; [exact H|].
  exact (request_returns_only_200_payloads float_of_str_unused sample_http sample_route
           VNone recovering_server (VDict server_payload) H).
Defined.

Lemma request_retry_then_success_witness :
  HTTPClient.rate_limit_info float_of_str_unused (recovering_server 0) =
    Ok (float_2, VStr "command") /\
  (HTTPClient.request float_of_str_unused sample_http sample_route VNone
     recovering_server).1.1 = Ok (HTTPClient.decode (recovering_server 1)).
Proof.
  assert (H0 : HTTPClient.rate_limit_info float_of_str_unused (recovering_server 0) =
               Ok (float_2, VStr "command")) by (vm_compute; reflexivity).
  split; [exact H0|].
  exact (proj1 (request_retry_then_success float_of_str_unused sample_http sample_route
                  VNone recovering_server float_2 (VStr "command")
                  eq_refl H0 eq_refl eq_refl eq_refl eq_refl)).
Defined.

Lemma request_other_status_raises_HTTPException_witness :
  py_or (HTTPClient.decode (empty_response 500)) (VDict ∅) = VDict ∅ /\
  (HTTPClient.request float_of_str_unused sample_http sample_route VNone
     (fun _ => empty_response 500)).1.1 =
  Raise (EHTTPException 500 (VStr "HTTP 500") (VDict ∅)).
Proof.
  split; [reflexivity|].
  refine (proj1 (request_other_status_raises_HTTPException float_of_str_unused
                   sample_http sample_route VNone (fun _ => empty_response 500) ∅
                   _ _ _ eq_refl)); discriminate.
Defined.

Lemma request_429_unconvertible_retry_after_witness :
  py_float float_of_str_unused VNone =
    Raise (ETypeError
             "float() argument must be a string or a real number, not 'NoneType'") /\
  (HTTPClient.request float_of_str_unused sample_http sample_route VNone
     (fun _ => resp_429_null)).1.1 =
  Raise (ETypeError
           "float() argument must be a string or a real number, not 'NoneType'").
Proof.
  split; [reflexivity|].
  exact (proj1 (request_429_unconvertible_retry_after float_of_str_unused sample_http
                  sample_route VNone (fun _ => resp_429_null)
                  {["retry_after" := VNone]} VNone _
                  eq_refl eq_refl eq_refl eq_refl)).
Defined.

Lemma request_429_not_positive_is_not_retried_witness :
  HTTPClient.rate_limit_info float_of_str_unused resp_429_negative =
    Ok (float_minus_1, VNone) /\
  float_gt0 float_minus_1 = false /\
  attempts_of (HTTPClient.request float_of_str_unused sample_http sample_route VNone
                 (fun _ => resp_429_negative)).2 = 1%nat.
Proof.
  assert (H0 : HTTPClient.rate_limit_info float_of_str_unused resp_429_negative =
               Ok (float_minus_1, VNone)) by (vm_compute; reflexivity).
  split; [exact H0|]. split; [reflexivity|].
  exact (proj1 (proj2 (request_429_not_positive_is_not_retried float_of_str_unused
                         sample_http sample_route VNone (fun _ => resp_429_negative)
                         float_minus_1 VNone eq_refl H0 eq_refl))).
Defined.

Lemma request_exchanges_carry_credentials_witness :
  exists hdrs,
    HTTPClient.exchange_of authorized_http sample_route VNone =
      Exchange "GET" "https://api.policeroleplay.community/v1/server" VNone hdrs /\
    hdrs !! "server-key" = Some "ABC" /\
    hdrs !! "Authorization" = Some "token".
Proof.
  assert (Hin : HTTPClient.exchange_of authorized_http sample_route VNone ∈
                (HTTPClient.request float_of_str_unused authorized_http sample_route
                   VNone throttling_server).2).
  { apply list_elem_of_In. vm_compute. right. left. reflexivity. }
  destruct (request_exchanges_carry_credentials float_of_str_unused authorized_http
              sample_route VNone throttling_server _ Hin eq_refl)
    as (hdrs & Hev & Hkey & _ & Hauth & _).
  exists hdrs. split; [exact Hev|]. split; [exact Hkey|exact Hauth].
Defined.

Lemma owned_transport_reopens_after_close_witness :
  HTTPClient._owned_session sample_http = true /\
  let c1 := (HTTPClient.request float_of_str_unused sample_http sample_route VNone
               (fun _ => empty_response 200)).1.2 in
  (HTTPClient.close c1).2 = [SessionClose] /\
  opens_of (HTTPClient.request float_of_str_unused (HTTPClient.close c1).1
              sample_route VNone (fun _ => empty_response 200)).2 = 1%nat.
Proof.
  split; [reflexivity|].
  destruct (owned_transport_reopens_after_close float_of_str_unused sample_http
              sample_route VNone (fun _ => empty_response 200)
              sample_route VNone (fun _ => empty_response 200) eq_refl)
    as (H1 & _ & H3 & _).
  exact (conj H1 H3).
Defined.

Lemma from_api_raises_on_non_mapping_witness :
  (forall d, VNone <> VDict d) /\
  Server.from_api VNone = Raise EAttributeError /\
  Staff.from_api VNone = Raise EAttributeError.
Proof.
  assert (Hnd : forall d, VNone <> VDict d) by discriminate.
  split; [exact Hnd|].
  destruct (from_api_raises_on_non_mapping VNone Hnd) as (H1 & _ & _ & _ & _ & _ & _ & H8).
  exact (conj H1 H8).
Defined.

Lemma from_api_ignores_other_keys_witness :
  Player.from_api (VDict (<["Extra" := VInt 1]> bob_payload)) =
  Player.from_api (VDict bob_payload).
Proof.
  destruct (from_api_ignores_other_keys bob_payload "Extra" (VInt 1))
    as (_ & H & _).
  apply H. intros Hin. apply list_elem_of_In in Hin. simpl in Hin.
  repeat (destruct Hin as [Hin|Hin]; [discriminate|]). exact Hin.
Defined.

Lemma from_api_keeps_present_values_witness :
  exists p, Player.from_api (VDict {["Player" := VNone]}) = Ok p /\
            Player.player p = VNone.
Proof.
  destruct (from_api_keeps_present_values {["Player" := VNone]} VNone)
    as (_ & _ & (H & _) & _).
  exact (H eq_refl).
Defined.

Lemma perform_without_key_raises_witness :
  Client._http keyless_client = None /\
  Client.perform float_of_str_unused Client.OpGetServer keyless_client
    (fun _ => json_response 200 (VDict server_payload)) =
  (Raise (ERuntimeError "Server API has not been set."), keyless_client, []).
Proof.
  split; [reflexivity|].
  exact (perform_without_key_raises float_of_str_unused keyless_client
           Client.OpGetServer _ eq_refl (or_introl eq_refl)).
Defined.

Lemma perform_exchanges_use_own_route_witness :
  exists hdrs,
    HTTPClient.exchange_of sample_http (Route.mk "POST" "/server/command")
      (VDict {["command" := VStr "hint: hello"]}) =
    Exchange "POST" "https://api.policeroleplay.community/v1/server/command"
      (VDict {["command" := VStr "hint: hello"]}) hdrs.
Proof.
  assert (Hin : HTTPClient.exchange_of sample_http (Route.mk "POST" "/server/command")
                  (VDict {["command" := VStr "hint: hello"]}) ∈
                (Client.perform float_of_str_unused (Client.OpRunCommand "hint: hello")
                   sample_client (fun _ => empty_response 200)).2).
  { apply list_elem_of_In. vm_compute. right. left. reflexivity. }
  assert (Hne : "ABC" <> "") by discriminate.
  destruct (perform_exchanges_use_own_route float_of_str_unused sample_client "ABC"
              (Client.OpRunCommand "hint: hello") (fun _ => empty_response 200) _
              eq_refl Hne Hin eq_refl) as (hdrs & Hev & _).
  exists hdrs. exact Hev.
Defined.

Lemma consecutive_operations_share_session_witness :
  let server := fun _ : nat => json_response 200 (VList []) in
  let c1 := (Client.perform float_of_str_unused Client.OpGetPlayers sample_client
               server).1.2 in
  opens_of (Client.perform float_of_str_unused Client.OpGetPlayers sample_client
              server).2 = 1%nat /\
  opens_of (Client.perform float_of_str_unused Client.OpGetQueue c1 server).2 = 0%nat.
Proof.
  intros server c1.
  assert (Hne : "ABC" <> "") by discriminate.
  destruct (consecutive_operations_share_session float_of_str_unused sample_client "ABC"
              Client.OpGetPlayers server Client.OpGetQueue server
              eq_refl eq_refl eq_refl Hne) as (H1 & H2 & _).
  exact (conj H1 H2).
Defined.

Lemma event_last_registration_wins_witness :
  Client._events
    (Client.event (Client.event sample_client tick_handler).2 other_tick_handler).2
    !! "on_tick" = Some other_tick_handler.
Proof.
  destruct (event_last_registration_wins sample_client tick_handler other_tick_handler
              "on_tick" eq_refl eq_refl eq_refl eq_refl) as (_ & H & _).
  refine (proj1 (H _)). discriminate.
Defined.

Lemma run_closes_the_session_it_opened_witness :
  let out := Client.run float_of_str_unused client_with_ready None None in
  Client._closed out.1.2 = true /\
  Client._http out.1.2 = None /\
  opens_of out.2 = closes_of out.2.
Proof.
  destruct (run_closes_the_session_it_opened float_of_str_unused client_with_ready
              None None eq_refl eq_refl eq_refl) as (H1 & H2 & H3 & _).
  exact (conj H1 (conj H2 H3)).
Defined.

Lemma close_after_reuse_does_nothing_witness :
  let c2 := (Client.perform float_of_str_unused Client.OpGetServer
               (Client.close used_client).1
               (fun _ => json_response 200 (VDict server_payload))).1.2 in
  Client.close c2 = (c2, []) /\ session_held c2 = 1%nat.
Proof.
  assert (Hne : "ABC" <> "") by discriminate.
  destruct (close_after_reuse_does_nothing float_of_str_unused used_client "ABC"
              Client.OpGetServer (fun _ => json_response 200 (VDict server_payload))
              eq_refl eq_refl Hne) as (H1 & H2 & _).
  exact (conj H1 H2).
Defined.

Lemma close_releases_the_transport_witness :
  (Client.close used_client).2 = [SessionClose] /\
  Client._http (Client.close used_client).1 = None.
Proof.
  assert (Hne : "ABC" <> "") by discriminate.
  destruct (close_releases_the_transport float_of_str_unused sample_client "ABC"
              Client.OpGetPlayers (fun _ => json_response 200 (VList []))
              eq_refl eq_refl eq_refl Hne) as (H1 & H2 & _).
  exact (conj H1 H2).
Defined.

Lemma operations_map_the_200_payload_witness :
  (Client.get_bans float_of_str_unused sample_client
     (fun _ => json_response 200 (VDict server_payload))).1.1 =
  Ok (VDict server_payload).
Proof.
  assert (Hne : "ABC" <> "") by discriminate.
  destruct (operations_map_the_200_payload float_of_str_unused sample_client "ABC"
              (fun _ => json_response 200 (VDict server_payload))
              eq_refl Hne eq_refl eq_refl) as (_ & _ & _ & _ & _ & _ & _ & _ & H & _).
  exact H.
Defined.

Lemma operations_on_empty_200_witness :
  HTTPClient.decode (empty_response 200) = VNone /\
  (Client.get_server float_of_str_unused sample_client
     (fun _ => empty_response 200)).1.1 = Raise EAttributeError /\
  (Client.get_staff float_of_str_unused sample_client
     (fun _ => empty_response 200)).1.1 = Ok (Staff.mk (VList []) (VDict ∅) (VDict ∅)).
Proof.
  assert (Hne : "ABC" <> "") by discriminate.
  split; [reflexivity|].
  destruct (operations_on_empty_200 float_of_str_unused sample_client "ABC"
              (fun _ => empty_response 200) eq_refl Hne eq_refl eq_refl)
    as (H1 & H2 & _).
  exact (conj H1 H2).
Defined.

Lemma perform_raises_what_request_raises_witness :
  (Client.perform float_of_str_unused Client.OpGetServer sample_client
     (fun _ => empty_response 403)).1.1 = Raise (Forbidden (VStr "Unauthorized")).
Proof.
  destruct (perform_raises_what_request_raises float_of_str_unused sample_client
              Client.OpGetServer (fun _ => empty_response 403)
              (Forbidden (VStr "Unauthorized"))) as (H & _).
  apply H. vm_compute. reflexivity.
Defined.

Lemma get_players_all_or_nothing_witness :
  let server := fun _ : nat => json_response 200 (VList [VDict bob_payload; VInt 1]) in
  (Client.get_players float_of_str_unused sample_client server).1.1 =
  Raise EAttributeError.
Proof.
  intros server.
  destruct (Client._request float_of_str_unused sample_client
              (Route.mk "GET" "/server/players") VNone server) as [[r c'] tr] eqn:Hreq.
  assert (Hr : r = Ok (VList [VDict bob_payload; VInt 1])).
  { apply (f_equal (fun x => x.1.1)) in Hreq. simpl in Hreq. rewrite <- Hreq.
    vm_compute. reflexivity. }
  subst r.
  destruct (get_players_all_or_nothing float_of_str_unused sample_client server
              [VDict bob_payload; VInt 1] c' tr Hreq) as (_ & H).
  rewrite (H (VInt 1)); [reflexivity| |discriminate].
  apply list_elem_of_In. simpl. auto.
Defined.

(** * Further properties: which credentials reach the wire *)

Section Credentials.

Variable float_of_str : string -> option float.

Implicit Types (c : Client.t) (server : nat -> ClientResponse).

Lemma request_carries_credentials (h : HTTPClient.t) route body server :
  Forall (carries_credentials (HTTPClient.server_key h) (HTTPClient.authorization h))
    (HTTPClient.request float_of_str h route body server).2.
Proof.
  apply Forall_forall. intros ev Hin.
  destruct ev as [| |m u b hdrs|]; try exact I.
  pose proof (request_exchanges_are_uniform float_of_str h route body server _ Hin eq_refl)
    as Hev.
  injection Hev as _ _ _ ->.
  destruct (headers_lookup h) as (Hk & _ & Ha & _). by split.
Qed.






(** X27: the credentials are read when the transport is built, not
    when a request is made: while the client holds a transport, every
    exchange of a typed operation carries the key and the token that
    transport was built with, whatever [server_key] and [authorization]
    of the client say by then. *)
Theorem existing_transport_keeps_its_credentials c (h : HTTPClient.t) op server :
  Client._http c = Some h ->
  Forall (carries_credentials (HTTPClient.server_key h) (HTTPClient.authorization h))
    (Client.perform float_of_str op c server).2.
Proof.
  intros Hh.
  destruct (perform_via_request float_of_str op c server) as (_ & -> & _).
  unfold Client._request, Client._ensure_http. rewrite Hh.
  pose proof (request_carries_credentials h (route_of op) (body_of op) server) as H.
  by destruct (HTTPClient.request float_of_str h (route_of op) (body_of op) server)
    as [[r h'] tr].
Qed.

End Credentials.


Lemma existing_transport_keeps_its_credentials_witness :
  Client.server_key rekeyed_client = Some "XYZ" /\
  Forall (carries_credentials "ABC" None)
    (Client.perform float_of_str_unused Client.OpGetServer rekeyed_client
       (fun _ => json_response 200 (VDict server_payload))).2.
Proof.
  split; [reflexivity|].
  destruct (Client._http rekeyed_client) as [h|] eqn:Hh; [|discriminate].
  assert (Hk : HTTPClient.server_key h = "ABC" /\ HTTPClient.authorization h = None).
  { revert Hh. vm_compute. intros [= <-]. split; reflexivity. }
  destruct Hk as [Hk Ha].
  rewrite <- Hk, <- Ha.
  exact (existing_transport_keeps_its_credentials float_of_str_unused rekeyed_client h
           Client.OpGetServer _ Hh).
Defined.
